(** * extended-haxball.js: the typed contract and its test harness

    The repository consists of TypeScript declarations ([types/index.d.ts])
    for the HaxBall headless host and of a mocha harness ([test/room.js], in
    two revisions).

    - [Decl]: the declarations, as tables of members, with the functions
      that read them ([extends], [Partial], return types).
    - [JS]: the values that cross the declared interface.
    - [Host]: the room state and the methods of [RoomObject] that read and
      update discs and players.
    - [Vertex] ... [StadiumObject], [Stadium]: the stadium file, its index
      invariant and its colours.
    - [Harness]: the two revisions of the harness as functions from the
      process environment to the schedule mocha runs. *)

From Stdlib Require Import ZArith Ascii String List Bool Lia.
From stdpp Require Import base option list strings gmap.

Local Open Scope string_scope.
Local Open Scope list_scope.

(** ** Declarations of [types/index.d.ts] *)

Module Decl.

(** The type expressions that occur in the declarations. *)
#[local] Set Warnings "-register-all".
Inductive ty : Type :=
| TNumber
| TString
| TBoolean
| TVoid
| TNull
| TAny
| TLit (s : string)
| TRef (name : string)
| TTypeof (name : string)
| TArray (elt : ty)
| TTuple (elts : list ty)
| TUnion (alts : list ty)
| TGeneric (name : string) (args : list ty)
| TObject (fields : list (string * bool * ty)).

Record param : Type := { p_name : string; p_optional : bool; p_type : ty }.

(** A member is a property [name: T] or a method [name(params): T]. *)
Inductive shape : Type :=
| Property (t : ty)
| Method (params : list param) (ret : ty).

(** [m_optional] is the [?] after the member's name. *)
Record member : Type :=
  { m_name : string; m_optional : bool; m_shape : shape }.

Record interface : Type :=
  { i_name : string; i_extends : list string; i_members : list member }.

Record alias : Type := { a_name : string; a_body : ty }.

Record func : Type :=
  { f_name : string; f_params : list param; f_return : ty }.

Definition req (n : string) (t : ty) : member :=
  {| m_name := n; m_optional := false; m_shape := Property t |}.
Definition opt (n : string) (t : ty) : member :=
  {| m_name := n; m_optional := true; m_shape := Property t |}.
Definition meth (n : string) (ps : list param) (r : ty) : member :=
  {| m_name := n; m_optional := false; m_shape := Method ps r |}.
Definition meth_opt (n : string) (ps : list param) (r : ty) : member :=
  {| m_name := n; m_optional := true; m_shape := Method ps r |}.
Definition arg (n : string) (t : ty) : param :=
  {| p_name := n; p_optional := false; p_type := t |}.
Definition arg_opt (n : string) (t : ty) : param :=
  {| p_name := n; p_optional := true; p_type := t |}.

Definition nullable (t : ty) : ty := TUnion [t; TNull].
Definition pair_of_numbers : ty := TTuple [TNumber; TNumber].

(** *** [declare module 'haxball.js'] *)

Definition RoomConfig : interface :=
  {| i_name := "RoomConfig";
     i_extends := ["RoomConfigObject"];
     i_members :=
       [ req "token" TString;
         opt "proxy" TString;
         opt "debug" TBoolean;
         opt "webrtc"
           (TObject
              [ ("RTCPeerConnection", false, TTypeof "RTCPeerConnection");
                ("RTCIceCandidate", false, TTypeof "RTCIceCandidate");
                ("RTCSessionDescription", false,
                  TTypeof "RTCSessionDescription") ]) ] |}.

(** [export function HBInit(config: RoomConfig): Promise<RoomObject>] *)
Definition HBInit_module : func :=
  {| f_name := "HBInit";
     f_params := [arg "config" (TRef "RoomConfig")];
     f_return := TGeneric "Promise" [TRef "RoomObject"] |}.

(** *** 1. Core types and enums *)

Definition TeamID : list (string * Z) :=
  [("Spectators", 0%Z); ("Red", 1%Z); ("Blue", 2%Z)].

Definition Position : interface :=
  {| i_name := "Position"; i_extends := [];
     i_members := [req "x" TNumber; req "y" TNumber] |}.

Definition GeoCoordinates : interface :=
  {| i_name := "GeoCoordinates"; i_extends := [];
     i_members := [req "code" TString; req "lat" TNumber; req "lon" TNumber] |}.

(** *** 2. Player and score objects *)

Definition ScoresObject : interface :=
  {| i_name := "ScoresObject"; i_extends := [];
     i_members :=
       [ req "red" TNumber; req "blue" TNumber; req "time" TNumber;
         req "scoreLimit" TNumber; req "timeLimit" TNumber ] |}.

Definition PlayerObject : interface :=
  {| i_name := "PlayerObject"; i_extends := [];
     i_members :=
       [ req "id" TNumber;
         req "name" TString;
         req "team" (TRef "TeamID");
         req "admin" TBoolean;
         req "position" (nullable (TRef "Position"));
         req "auth" (nullable TString);
         req "conn" TString ] |}.

(** *** 3. Physics types of the host API *)

Definition DiscPropertiesObject : interface :=
  {| i_name := "DiscPropertiesObject"; i_extends := [];
     i_members :=
       [ req "x" TNumber; req "y" TNumber;
         req "xspeed" TNumber; req "yspeed" TNumber;
         req "xgravity" TNumber; req "ygravity" TNumber;
         req "radius" TNumber; req "bCoeff" TNumber;
         req "invMass" TNumber; req "damping" TNumber;
         req "color" TNumber; req "cMask" TNumber; req "cGroup" TNumber ] |}.

Definition PartialDiscProperties : alias :=
  {| a_name := "PartialDiscProperties";
     a_body := TGeneric "Partial" [TRef "DiscPropertiesObject"] |}.

Definition CollisionFlagsObject : interface :=
  {| i_name := "CollisionFlagsObject"; i_extends := [];
     i_members :=
       [ req "ball" TNumber; req "red" TNumber; req "blue" TNumber;
         req "redKO" TNumber; req "blueKO" TNumber; req "wall" TNumber;
         req "all" TNumber; req "kick" TNumber; req "score" TNumber;
         req "c0" TNumber; req "c1" TNumber; req "c2" TNumber;
         req "c3" TNumber ] |}.

(** *** 4. Stadium file structures *)

Definition Color : alias :=
  {| a_name := "Color";
     a_body :=
       TUnion [TLit "transparent"; TString;
               TTuple [TNumber; TNumber; TNumber]] |}.

Definition Vertex : interface :=
  {| i_name := "Vertex"; i_extends := [];
     i_members :=
       [ opt "bCoef" TNumber;
         opt "cMask" (TArray TString);
         opt "cGroup" (TArray TString);
         opt "trait" TString ] |}.

Definition Segment : interface :=
  {| i_name := "Segment"; i_extends := [];
     i_members :=
       [ req "v0" TNumber; req "v1" TNumber;
         opt "bCoef" TNumber; opt "curve" TNumber; opt "curveF" TNumber;
         opt "bias" TNumber; opt "vis" TBoolean;
         opt "color" (TRef "Color");
         opt "cMask" (TArray TString);
         opt "cGroup" (TArray TString);
         opt "trait" TString ] |}.

Definition Goal : interface :=
  {| i_name := "Goal"; i_extends := [];
     i_members :=
       [ req "p0" pair_of_numbers; req "p1" pair_of_numbers;
         req "team" (TUnion [TLit "red"; TLit "blue"]);
         opt "trait" TString ] |}.

Definition Plane : interface :=
  {| i_name := "Plane"; i_extends := [];
     i_members :=
       [ req "normal" pair_of_numbers; req "dist" TNumber;
         opt "bCoef" TNumber;
         opt "cMask" (TArray TString);
         opt "cGroup" (TArray TString);
         opt "trait" TString ] |}.

Definition Disc : interface :=
  {| i_name := "Disc"; i_extends := [];
     i_members :=
       [ req "pos" pair_of_numbers;
         opt "speed" pair_of_numbers;
         opt "gravity" pair_of_numbers;
         req "radius" TNumber;
         opt "invMass" TNumber; opt "damping" TNumber;
         opt "color" (TRef "Color");
         opt "bCoef" TNumber;
         opt "cMask" (TArray TString);
         opt "cGroup" (TArray TString);
         opt "trait" TString ] |}.

Definition Joint : interface :=
  {| i_name := "Joint"; i_extends := [];
     i_members :=
       [ req "d0" TNumber; req "d1" TNumber;
         opt "length" (TUnion [TNull; TNumber; pair_of_numbers]);
         opt "strength" (TUnion [TLit "rigid"; TNumber]);
         opt "color" (TRef "Color");
         opt "trait" TString ] |}.

Definition PlayerPhysics : interface :=
  {| i_name := "PlayerPhysics"; i_extends := [];
     i_members :=
       [ opt "gravity" pair_of_numbers;
         opt "radius" TNumber; opt "invMass" TNumber; opt "bCoef" TNumber;
         opt "damping" TNumber;
         opt "cGroup" (TArray TString);
         opt "acceleration" TNumber;
         opt "kickingAcceleration" TNumber ] |}.

Definition BackgroundObject : interface :=
  {| i_name := "BackgroundObject"; i_extends := [];
     i_members :=
       [ opt "type" (TUnion [TLit "grass"; TLit "hockey"; TLit "none"]);
         opt "width" TNumber; opt "height" TNumber;
         opt "kickOffRadius" TNumber; opt "cornerRadius" TNumber;
         opt "goalLine" TNumber;
         opt "color" (TRef "Color") ] |}.

Definition StadiumObject : interface :=
  {| i_name := "StadiumObject"; i_extends := [];
     i_members :=
       [ req "name" TString;
         opt "width" TNumber; opt "height" TNumber;
         opt "maxViewWidth" TNumber;
         opt "cameraFollow" (TUnion [TLit "player"; TLit "ball"]);
         opt "spawnDistance" TNumber;
         opt "canBeStored" TBoolean;
         opt "kickOffReset" (TUnion [TLit "full"; TLit "partial"]);
         opt "bg" (TRef "BackgroundObject");
         opt "traits" (TGeneric "Record" [TString; TAny]);
         req "vertexes" (TArray (TRef "Vertex"));
         req "segments" (TArray (TRef "Segment"));
         req "goals" (TArray (TRef "Goal"));
         req "discs" (TArray (TRef "Disc"));
         req "planes" (TArray (TRef "Plane"));
         req "joints" (TArray (TRef "Joint"));
         opt "redSpawnPoints" (TArray pair_of_numbers);
         opt "blueSpawnPoints" (TArray pair_of_numbers);
         opt "playerPhysics" (TRef "PlayerPhysics");
         opt "ballPhysics" (TUnion [TRef "Disc"; TLit "disc0"]) ] |}.

(** *** 5. Room configuration *)

Definition RoomConfigObject : interface :=
  {| i_name := "RoomConfigObject"; i_extends := [];
     i_members :=
       [ opt "roomName" TString; opt "playerName" TString;
         opt "password" TString; opt "maxPlayers" TNumber;
         opt "public" TBoolean;
         opt "geo" (TRef "GeoCoordinates");
         opt "token" TString;
         opt "noPlayer" TBoolean ] |}.

Definition InputObject : interface :=
  {| i_name := "InputObject"; i_extends := [];
     i_members :=
       [ req "up" TBoolean; req "down" TBoolean; req "left" TBoolean;
         req "right" TBoolean; req "shoot" TBoolean ] |}.

(** *** 6. The room API *)

Definition AnnouncementStyle : alias :=
  {| a_name := "AnnouncementStyle";
     a_body :=
       TUnion [TLit "normal"; TLit "bold"; TLit "italic"; TLit "small";
               TLit "small-bold"; TLit "small-italic"] |}.

Definition player : ty := TRef "PlayerObject".
Definition by_player : param := arg "byPlayer" (nullable player).

Definition RoomObject : interface :=
  {| i_name := "RoomObject"; i_extends := [];
     i_members :=
       [ (* Methods *)
         meth "sendChat" [arg "message" TString; arg_opt "targetId" TNumber] TVoid;
         meth "setPlayerAdmin" [arg "playerID" TNumber; arg "admin" TBoolean] TVoid;
         meth "setPlayerTeam" [arg "playerID" TNumber; arg "team" (TRef "TeamID")] TVoid;
         meth "kickPlayer"
           [arg "playerID" TNumber; arg "reason" TString; arg "ban" TBoolean] TVoid;
         meth "clearBan" [arg "playerId" TNumber] TVoid;
         meth "clearBans" [] TVoid;
         meth "setScoreLimit" [arg "limit" TNumber] TVoid;
         meth "setTimeLimit" [arg "limitInMinutes" TNumber] TVoid;
         meth "setCustomStadium" [arg "stadiumFileContents" TString] TVoid;
         meth "setDefaultStadium" [arg "stadiumName" TString] TVoid;
         meth "setTeamsLock" [arg "locked" TBoolean] TVoid;
         meth "setTeamColors"
           [arg "team" (TRef "TeamID"); arg "angle" TNumber;
            arg "textColor" TNumber; arg "colors" (TArray TNumber)] TVoid;
         meth "startGame" [] TVoid;
         meth "stopGame" [] TVoid;
         meth "pauseGame" [arg "pauseState" TBoolean] TVoid;
         meth "getPlayer" [arg "playerId" TNumber] (nullable player);
         meth "getPlayerList" [] (TArray player);
         meth "getScores" [] (nullable (TRef "ScoresObject"));
         meth "getBallPosition" [] (nullable (TRef "Position"));
         meth "startRecording" [] TVoid;
         meth "stopRecording" [] (nullable (TRef "Uint8Array"));
         meth "setPassword" [arg "pass" (nullable TString)] TVoid;
         meth "setRequireRecaptcha" [arg "required" TBoolean] TVoid;
         meth "reorderPlayers"
           [arg "playerIdList" (TArray TNumber); arg "moveToTop" TBoolean] TVoid;
         meth "sendAnnouncement"
           [arg "msg" TString; arg_opt "targetId" TNumber; arg_opt "color" TNumber;
            arg_opt "style" (TRef "AnnouncementStyle"); arg_opt "sound" TNumber]
           TVoid;
         meth "setKickRateLimit"
           [arg "min" TNumber; arg "rate" TNumber; arg "burst" TNumber] TVoid;
         meth "setPlayerAvatar"
           [arg "playerId" TNumber; arg "avatar" (nullable TString)] TVoid;
         meth "setDiscProperties"
           [arg "discIndex" TNumber;
            arg "properties" (TRef "PartialDiscProperties")] TVoid;
         meth "getDiscProperties" [arg "discIndex" TNumber]
           (nullable (TRef "DiscPropertiesObject"));
         meth "setPlayerDiscProperties"
           [arg "playerId" TNumber;
            arg "properties" (TRef "PartialDiscProperties")] TVoid;
         meth "getPlayerDiscProperties" [arg "playerId" TNumber]
           (nullable (TRef "DiscPropertiesObject"));
         meth "getDiscCount" [] TNumber;
         (* Additions *)
         meth "onPlayerInput"
           [arg "player" player; arg "input" (TRef "InputObject")] TVoid;
         meth "getInputObject" [arg "playerId" TNumber]
           (nullable (TRef "InputObject"));
         meth "resetPositions" [] TVoid;
         (* Properties *)
         req "CollisionFlags" (TRef "CollisionFlagsObject");
         (* Event handlers *)
         meth_opt "onPlayerJoin" [arg "player" player] TVoid;
         meth_opt "onPlayerLeave" [arg "player" player] TVoid;
         meth_opt "onTeamVictory" [arg "scores" (TRef "ScoresObject")] TVoid;
         meth_opt "onPlayerChat" [arg "player" player; arg "message" TString]
           (TUnion [TBoolean; TVoid]);
         meth_opt "onPlayerBallKick" [arg "player" player] TVoid;
         meth_opt "onTeamGoal" [arg "team" (TRef "TeamID")] TVoid;
         meth_opt "onGameStart" [by_player] TVoid;
         meth_opt "onGameStop" [by_player] TVoid;
         meth_opt "onPlayerAdminChange" [arg "changedPlayer" player; by_player] TVoid;
         meth_opt "onPlayerTeamChange" [arg "changedPlayer" player; by_player] TVoid;
         meth_opt "onPlayerKicked"
           [arg "kickedPlayer" player; arg "reason" TString; arg "ban" TBoolean;
            by_player] TVoid;
         meth_opt "onGameTick" [] TVoid;
         meth_opt "onGamePause" [by_player] TVoid;
         meth_opt "onGameUnpause" [by_player] TVoid;
         meth_opt "onPositionsReset" [] TVoid;
         meth_opt "onPlayerActivity" [arg "player" player] TVoid;
         meth_opt "onStadiumChange" [arg "newStadiumName" TString; by_player] TVoid;
         meth_opt "onRoomLink" [arg "url" TString] TVoid;
         meth_opt "onKickRateLimitSet"
           [arg "min" TNumber; arg "rate" TNumber; arg "burst" TNumber; by_player]
           TVoid;
         meth_opt "onTeamsLockChange" [arg "locked" TBoolean; by_player] TVoid ] |}.

(** *** 7. Global functions *)

(** [declare function HBInit(roomConfig: RoomConfigObject): RoomObject] *)
Definition HBInit_ambient : func :=
  {| f_name := "HBInit";
     f_params := [arg "roomConfig" (TRef "RoomConfigObject")];
     f_return := TRef "RoomObject" |}.

Definition onHBLoaded : func :=
  {| f_name := "onHBLoaded"; f_params := []; f_return := TVoid |}.

(** Everything the two declaration files declare. *)
Definition interfaces : list interface :=
  [ RoomConfig; Position; GeoCoordinates; ScoresObject; PlayerObject;
    DiscPropertiesObject; CollisionFlagsObject; Vertex; Segment; Goal; Plane;
    Disc; Joint; PlayerPhysics; BackgroundObject; StadiumObject;
    RoomConfigObject; InputObject; RoomObject ].

Definition aliases : list alias :=
  [PartialDiscProperties; Color; AnnouncementStyle].

Definition functions : list func :=
  [HBInit_module; HBInit_ambient; onHBLoaded].

(** *** Reading the declarations *)

Definition find_interface (n : string) : option interface :=
  find (fun i => String.eqb (i_name i) n) interfaces.

Definition find_alias (n : string) : option alias :=
  find (fun a => String.eqb (a_name a) n) aliases.

Definition find_member (n : string) (ms : list member) : option member :=
  find (fun m => String.eqb (m_name m) n) ms.

Definition names (ms : list member) : list string := map m_name ms.

Definition has_member (n : string) (ms : list member) : bool :=
  existsb (String.eqb n) (names ms).

(** [interface A extends B]: the members A declares, then those of B that A
    does not redeclare.  [fuel] bounds the length of the extends chain. *)
Fixpoint members_of (fuel : nat) (i : interface) : list member :=
  match fuel with
  | O => i_members i
  | S fuel' =>
      let inherited :=
        flat_map
          (fun b =>
             match find_interface b with
             | Some bi => members_of fuel' bi
             | None => []
             end)
          (i_extends i) in
      i_members i
        ++ List.filter (fun m => negb (has_member (m_name m) (i_members i))) inherited
  end.

Definition all_members (i : interface) : list member :=
  members_of (length interfaces) i.

(** [Partial<T>] makes every member of T optional. *)
Definition Partial (ms : list member) : list member :=
  map (fun m => {| m_name := m_name m; m_optional := true;
                   m_shape := m_shape m |}) ms.

Definition return_type (m : member) : option ty :=
  match m_shape m with
  | Method _ r => Some r
  | Property _ => None
  end.

Definition is_void (t : ty) : bool :=
  match t with TVoid => true | _ => false end.

Definition is_null (t : ty) : bool :=
  match t with TNull => true | _ => false end.

(** A type allows [null] when it is [null] or a union with a [null] arm. *)
Definition allows_null (t : ty) : bool :=
  match t with
  | TNull | TAny => true
  | TUnion alts => existsb is_null alts
  | _ => false
  end.

Definition is_promise (t : ty) : bool :=
  match t with
  | TGeneric "Promise" [_] => true
  | _ => false
  end.

(** The event-handler slots are the members whose name starts with [on]. *)
Definition is_handler (m : member) : bool :=
  match m_shape m with
  | Method _ _ => String.prefix "on" (m_name m)
  | Property _ => false
  end.

Definition handlers (i : interface) : list member :=
  List.filter is_handler (i_members i).

(** The initialization entry points: the functions called [HBInit]. *)
Definition initializers : list func :=
  List.filter (fun f => String.eqb (f_name f) "HBInit") functions.

(** The custom collision flags are named [c] and a digit. *)
Definition is_custom_flag (n : string) : bool :=
  match n with
  | String "c" (String d EmptyString) =>
      (48 <=? nat_of_ascii d)%nat && (nat_of_ascii d <=? 57)%nat
  | _ => false
  end.

(** The interfaces with a property of the named type. *)
Definition has_type_name (n : string) (m : member) : bool :=
  match m_shape m with
  | Property (TRef n') => String.eqb n n'
  | _ => false
  end.

Definition interfaces_using (n : string) : list interface :=
  List.filter (fun i => existsb (has_type_name n) (i_members i)) interfaces.

(** The type names a type expression refers to; a generic type refers to
    its own name and to what its arguments refer to.  [typeof x] names a
    value and no type. *)
Fixpoint refs_of (t : ty) : list string :=
  match t with
  | TRef n => [n]
  | TArray e => refs_of e
  | TTuple es => flat_map refs_of es
  | TUnion alts => flat_map refs_of alts
  | TGeneric n args => n :: flat_map refs_of args
  | TObject fields => flat_map (fun f => let '(_, t') := f in refs_of t') fields
  | _ => []
  end.

(** The values a type expression asks the type of, with [typeof]. *)
Fixpoint typeof_of (t : ty) : list string :=
  match t with
  | TTypeof n => [n]
  | TArray e => typeof_of e
  | TTuple es => flat_map typeof_of es
  | TUnion alts => flat_map typeof_of alts
  | TGeneric _ args => flat_map typeof_of args
  | TObject fields =>
      flat_map (fun f => let '(_, t') := f in typeof_of t') fields
  | _ => []
  end.

Definition member_typeofs (m : member) : list string :=
  match m_shape m with
  | Property t => typeof_of t
  | Method ps r => flat_map (fun p => typeof_of (p_type p)) ps ++ typeof_of r
  end.

(** Every value whose type a member, a parameter, a result or an alias
    asks for. *)
Definition queried : list string :=
  flat_map (fun i => flat_map member_typeofs (i_members i)) interfaces
  ++ flat_map (fun a => typeof_of (a_body a)) aliases
  ++ flat_map
       (fun f =>
          flat_map (fun p => typeof_of (p_type p)) (f_params f)
          ++ typeof_of (f_return f))
       functions.

Definition member_refs (m : member) : list string :=
  match m_shape m with
  | Property t => refs_of t
  | Method ps r => flat_map (fun p => refs_of (p_type p)) ps ++ refs_of r
  end.

Definition func_refs (f : func) : list string :=
  flat_map (fun p => refs_of (p_type p)) (f_params f) ++ refs_of (f_return f).

(** Every type name used by a member, a parameter, a result or an alias. *)
Definition referenced : list string :=
  flat_map (fun i => flat_map member_refs (i_members i)) interfaces
  ++ flat_map (fun a => refs_of (a_body a)) aliases
  ++ flat_map func_refs functions.

(** The type names the two files declare: interfaces, aliases and the enum
    [TeamID]. *)
Definition declared : list string :=
  map i_name interfaces ++ map a_name aliases ++ ["TeamID"].

Definition is_declared (n : string) : bool := existsb (String.eqb n) declared.

(** The methods that are not event handlers. *)
Definition is_method (m : member) : bool :=
  match m_shape m with
  | Method _ _ => negb (is_handler m)
  | Property _ => false
  end.

Definition returns_void (m : member) : bool :=
  match return_type m with
  | Some r => is_void r
  | None => false
  end.

End Decl.

(** ** JavaScript values *)

Module JS.

(** The values that cross the declared interface: [undefined], [null],
    booleans, numbers, strings, arrays and object literals.  The declarations
    only carry numbers around (identifiers, indices, bit masks, colour
    channels); they are represented by their integer value. *)
#[local] Set Warnings "-register-all".
Inductive value : Type :=
| VUndefined
| VNull
| VBool (b : bool)
| VNum (n : Z)
| VStr (s : string)
| VArr (items : list value)
| VObj (props : list (string * value)).

(** [process.env]: a variable is a string, or is not there. *)
Definition getenv (env : gmap string string) (k : string) : value :=
  match env !! k with
  | Some s => VStr s
  | None => VUndefined
  end.

(** ToBoolean. *)
Definition truthy (v : value) : bool :=
  match v with
  | VUndefined | VNull => false
  | VBool b => b
  | VNum n => negb (n =? 0)%Z
  | VStr s => negb (String.eqb s "")
  | VArr _ | VObj _ => true
  end.

(** [a || b] *)
Definition or (a b : value) : value := if truthy a then a else b.

(** [v == '1'] for a [v] read from [process.env]: a string compares by
    contents, and [undefined] equals no string. *)
Definition loose_eq_string (v : value) (s : string) : bool :=
  match v with
  | VStr s' => String.eqb s' s
  | _ => false
  end.

(** [arr[i]]: [undefined] (here [None]) outside the array. *)
Definition index {A : Type} (l : list A) (i : Z) : option A :=
  if (0 <=? i)%Z then l !! Z.to_nat i else None.

(** Whether a value belongs to a type expression built from primitives,
    literals, arrays, tuples and unions; named references are resolved by
    the caller. *)
Fixpoint inhabits (t : Decl.ty) (v : value) {struct t} : bool :=
  match t with
  | Decl.TNumber => match v with VNum _ => true | _ => false end
  | Decl.TString => match v with VStr _ => true | _ => false end
  | Decl.TBoolean => match v with VBool _ => true | _ => false end
  | Decl.TVoid => match v with VUndefined => true | _ => false end
  | Decl.TNull => match v with VNull => true | _ => false end
  | Decl.TAny => true
  | Decl.TLit s => match v with VStr s' => String.eqb s s' | _ => false end
  | Decl.TArray e =>
      match v with VArr vs => forallb (inhabits e) vs | _ => false end
  | Decl.TTuple es =>
      match v with
      | VArr vs =>
          (fix each (es : list Decl.ty) (vs : list value) : bool :=
             match es, vs with
             | [], [] => true
             | e :: es', v' :: vs' => inhabits e v' && each es' vs'
             | _, _ => false
             end) es vs
      | _ => false
      end
  | Decl.TUnion alts => existsb (fun a => inhabits a v) alts
  | Decl.TRef _ | Decl.TTypeof _ | Decl.TGeneric _ _ | Decl.TObject _ => false
  end.

(** [obj.k] for an object literal: the last property named [k], and
    [undefined] when there is none. *)
Definition prop (v : value) (k : string) : value :=
  match v with
  | VObj props =>
      match find (fun kv => String.eqb (fst kv) k) (rev props) with
      | Some kv => snd kv
      | None => VUndefined
      end
  | _ => VUndefined
  end.

(** Two object literals with the same properties, in any order. *)
Definition same_object (a b : value) : Prop :=
  match a, b with
  | VObj p, VObj q => p ≡ₚ q
  | _, _ => a = b
  end.

End JS.

(** ** The host behind [RoomObject]

    The declarations give the signatures of the room's methods; their bodies
    live in the host script, which is not among the sources.  The data below
    follows the declared interfaces field by field; the operations follow
    the specification. *)

Module Host.

Inductive TeamID : Type := Spectators | Red | Blue.

Record Position : Type := { x : Z; y : Z }.

Record PlayerObject : Type :=
  { id : Z;
    name : string;
    team : TeamID;
    admin : bool;
    position : option Position;
    auth : option string;
    conn : string }.

Record InputObject : Type :=
  { up : bool; down : bool; left : bool; right : bool; shoot : bool }.

(** A disc is an object whose properties are numbers; the property names of
    a full [DiscPropertiesObject] are those the interface declares. *)
Definition disc_fields : list string :=
  Decl.names (Decl.all_members Decl.DiscPropertiesObject).

Definition is_full (d : gmap string Z) : Prop :=
  Forall (fun f => is_Some (d !! f)) disc_fields.

(** Modelled from the spec: a connected participant as the host script
    keeps it, which is not among the sources: the snapshot the accessors
    hand out, the player's disc if the player is on the field, and the keys
    the player holds. *)
Record Participant : Type :=
  { snapshot : PlayerObject;
    disc : option (gmap string Z);
    input : InputObject }.

(** Modelled from the spec: the room state of the host script, which is not
    among the sources: the connected participants and the discs of the
    stadium, in index order. *)
Record Room : Type :=
  { participants : list Participant;
    discs : list (gmap string Z) }.

(** Modelled from the spec: how the host script, missing from the sources,
    finds the participant an identifier names; identifiers are unique among
    the connected players. *)
Definition is_player (playerId : Z) (p : Participant) : bool :=
  (id (snapshot p) =? playerId)%Z.

(** Modelled from the spec: the lookup of a participant by identifier in the
    host script, missing from the sources. *)
Definition find_participant (r : Room) (playerId : Z) : option Participant :=
  find (is_player playerId) (participants r).

(** Modelled from the spec: the body of [getPlayerList], missing from the
    sources: the snapshots of the connected players. *)
Definition getPlayerList (r : Room) : list PlayerObject :=
  map snapshot (participants r).

(** Modelled from the spec: the body of [getPlayer], missing from the
    sources: a synchronous read that yields [null] for a player who is not
    there. *)
Definition getPlayer (r : Room) (playerId : Z) : option PlayerObject :=
  snapshot <$> find_participant r playerId.

(** Modelled from the spec: the body of [getDiscCount], missing from the
    sources. *)
Definition getDiscCount (r : Room) : Z := Z.of_nat (length (discs r)).

(** Modelled from the spec: the body of [getDiscProperties], missing from
    the sources: a synchronous read that yields [null] for a disc that is
    not there. *)
Definition getDiscProperties (r : Room) (discIndex : Z)
  : option (gmap string Z) :=
  JS.index (discs r) discIndex.

(** Modelled from the spec: the body of [getPlayerDiscProperties], missing
    from the sources: [null] for a player who is not there or has no
    disc. *)
Definition getPlayerDiscProperties (r : Room) (playerId : Z)
  : option (gmap string Z) :=
  find_participant r playerId ≫= disc.

(** Modelled from the spec: the body of [getInputObject], missing from the
    sources: [null] for a player who is not there. *)
Definition getInputObject (r : Room) (playerId : Z) : option InputObject :=
  input <$> find_participant r playerId.

(** Modelled from the spec: the partial update inside [setDiscProperties]
    and [setPlayerDiscProperties], missing from the sources: each of
    [fields] that the argument carries is written, nothing else is. *)
Definition assign_fields (fields : list string) (properties d : gmap string Z)
  : gmap string Z :=
  foldr
    (fun f acc =>
       match properties !! f with
       | Some v => <[f := v]> acc
       | None => acc
       end)
    d fields.

(** Modelled from the spec: the partial update over the declared properties
    of a disc. *)
Definition assign (properties d : gmap string Z) : gmap string Z :=
  assign_fields disc_fields properties d.

(** Modelled from the spec: the body of [setDiscProperties], missing from
    the sources: the disc at [discIndex] is updated; there is no disc to
    update at any other index, and nothing is returned. *)
Definition setDiscProperties (r : Room) (discIndex : Z)
    (properties : gmap string Z) : Room :=
  if (0 <=? discIndex)%Z then
    {| participants := participants r;
       discs := alter (assign properties) (Z.to_nat discIndex) (discs r) |}
  else r.

(** Modelled from the spec: the body of [setPlayerDiscProperties], missing
    from the sources: the disc of the player [playerId] is updated. *)
Definition setPlayerDiscProperties (r : Room) (playerId : Z)
    (properties : gmap string Z) : Room :=
  {| participants :=
       map
         (fun p =>
            if is_player playerId p then
              {| snapshot := snapshot p;
                 disc := assign properties <$> disc p;
                 input := input p |}
            else p)
         (participants r);
     discs := discs r |}.

(** [d'] is [d] updated with [properties]: a declared property that the
    argument carries has the argument's value, and a property that the
    argument does not carry has the value it had. *)
Definition partial_update (properties d d' : gmap string Z) : Prop :=
  (∀ f v, f ∈ disc_fields → properties !! f = Some v → d' !! f = Some v)
  ∧ (∀ f, properties !! f = None → d' !! f = d !! f).

End Host.

(** ** Stadium files

    One record per interface of section 4 of the declarations, with the
    fields in declaration order; an optional member is an [option]. *)

(** [type Color = 'transparent' | string | [number, number, number]]: a
    string (the literal is one) or a triplet of numbers. *)
Inductive Color : Type :=
| ColorString (s : string)
| ColorTriplet (r g b : Z).

Module Vertex.
Record t : Type :=
  { bCoef : option Z;
    cMask : option (list string);
    cGroup : option (list string);
    trait : option string }.
End Vertex.

Module Segment.
Record t : Type :=
  { v0 : Z;
    v1 : Z;
    bCoef : option Z;
    curve : option Z;
    curveF : option Z;
    bias : option Z;
    vis : option bool;
    color : option Color;
    cMask : option (list string);
    cGroup : option (list string);
    trait : option string }.
End Segment.

Module Goal.
Inductive side : Type := red | blue.
Record t : Type :=
  { p0 : Z * Z; p1 : Z * Z; team : side; trait : option string }.
End Goal.

Module Plane.
Record t : Type :=
  { normal : Z * Z;
    dist : Z;
    bCoef : option Z;
    cMask : option (list string);
    cGroup : option (list string);
    trait : option string }.
End Plane.

Module Disc.
Record t : Type :=
  { pos : Z * Z;
    speed : option (Z * Z);
    gravity : option (Z * Z);
    radius : Z;
    invMass : option Z;
    damping : option Z;
    color : option Color;
    bCoef : option Z;
    cMask : option (list string);
    cGroup : option (list string);
    trait : option string }.
End Disc.

Module Joint.
(** [null | number | [number, number]] and ['rigid' | number] *)
Inductive length_spec : Type :=
| LengthNull
| LengthFixed (n : Z)
| LengthRange (min max : Z).
Inductive strength_spec : Type := Rigid | Spring (k : Z).
Record t : Type :=
  { d0 : Z;
    d1 : Z;
    length : option length_spec;
    strength : option strength_spec;
    color : option Color;
    trait : option string }.
End Joint.

Module PlayerPhysics.
Record t : Type :=
  { gravity : option (Z * Z);
    radius : option Z;
    invMass : option Z;
    bCoef : option Z;
    damping : option Z;
    cGroup : option (list string);
    acceleration : option Z;
    kickingAcceleration : option Z }.
End PlayerPhysics.

Module BackgroundObject.
Inductive kind : Type := grass | hockey | none.
Record t : Type :=
  { type : option kind;
    width : option Z;
    height : option Z;
    kickOffRadius : option Z;
    cornerRadius : option Z;
    goalLine : option Z;
    color : option Color }.
End BackgroundObject.

Module StadiumObject.
Inductive camera : Type := player | ball.
Inductive reset : Type := full | partial.
Inductive ball_physics : Type := BallDisc (d : Disc.t) | disc0.
Record t : Type :=
  { name : string;
    width : option Z;
    height : option Z;
    maxViewWidth : option Z;
    cameraFollow : option camera;
    spawnDistance : option Z;
    canBeStored : option bool;
    kickOffReset : option reset;
    bg : option BackgroundObject.t;
    traits : option (list (string * JS.value));
    vertexes : list Vertex.t;
    segments : list Segment.t;
    goals : list Goal.t;
    discs : list Disc.t;
    planes : list Plane.t;
    joints : list Joint.t;
    redSpawnPoints : option (list (Z * Z));
    blueSpawnPoints : option (list (Z * Z));
    playerPhysics : option PlayerPhysics.t;
    ballPhysics : option ball_physics }.
End StadiumObject.

Module Stadium.

(** The invariant of the stadium schema: the vertexes a segment names and
    the discs a joint names are there. *)
Definition resolves {A : Type} (l : list A) (i : Z) : Prop :=
  is_Some (JS.index l i).

Definition indices_valid (s : StadiumObject.t) : Prop :=
  Forall
    (fun g =>
       resolves (StadiumObject.vertexes s) (Segment.v0 g)
       ∧ resolves (StadiumObject.vertexes s) (Segment.v1 g))
    (StadiumObject.segments s)
  ∧ Forall
      (fun j =>
         resolves (StadiumObject.discs s) (Joint.d0 j)
         ∧ resolves (StadiumObject.discs s) (Joint.d1 j))
      (StadiumObject.joints s).

(** Modelled from the spec: the bounds check of the schema validator, which
    is part of the host script and not of the sources: [i] is a position in
    a sequence of [n] elements. *)
Definition in_range (i : Z) (n : nat) : bool :=
  (0 <=? i)%Z && (i <? Z.of_nat n)%Z.

(** Modelled from the spec: the validator's check of one segment. *)
Definition segment_ok (s : StadiumObject.t) (g : Segment.t) : bool :=
  in_range (Segment.v0 g) (length (StadiumObject.vertexes s))
  && in_range (Segment.v1 g) (length (StadiumObject.vertexes s)).

(** Modelled from the spec: the validator's check of one joint. *)
Definition joint_ok (s : StadiumObject.t) (j : Joint.t) : bool :=
  in_range (Joint.d0 j) (length (StadiumObject.discs s))
  && in_range (Joint.d1 j) (length (StadiumObject.discs s)).

(** Modelled from the spec: the schema validator that runs when a stadium
    is loaded, missing from the sources; it accepts ([true]) or rejects
    ([false]) the stadium. *)
Definition validate (s : StadiumObject.t) : bool :=
  forallb (segment_ok s) (StadiumObject.segments s)
  && forallb (joint_ok s) (StadiumObject.joints s).

(** Modelled from the spec: how a colour is written into the serialized
    stadium; the sources have no serializer, the stadium is handed to
    [setCustomStadium] as text. *)
Definition Color_to_value (c : Color) : JS.value :=
  match c with
  | ColorString s => JS.VStr s
  | ColorTriplet r g b => JS.VArr [JS.VNum r; JS.VNum g; JS.VNum b]
  end.

(** Modelled from the spec: how a colour is read back from the serialized
    stadium; the reader is part of the host script and not of the
    sources. *)
Definition Color_of_value (v : JS.value) : option Color :=
  match v with
  | JS.VStr s => Some (ColorString s)
  | JS.VArr [JS.VNum r; JS.VNum g; JS.VNum b] => Some (ColorTriplet r g b)
  | _ => None
  end.

(** The three forms of a colour: ["transparent"], six hexadecimal digits,
    a triplet of numbers. *)
Definition is_hex_digit (c : ascii) : bool :=
  let n := nat_of_ascii c in
  ((48 <=? n) && (n <=? 57) || (65 <=? n) && (n <=? 70)
   || (97 <=? n) && (n <=? 102))%nat.

Definition is_hex6 (s : string) : bool :=
  (String.length s =? 6)%nat && forallb is_hex_digit (list_ascii_of_string s).

Definition is_color_form (v : JS.value) : bool :=
  match v with
  | JS.VStr s => String.eqb s "transparent" || is_hex6 s
  | JS.VArr [JS.VNum _; JS.VNum _; JS.VNum _] => true
  | _ => false
  end.

(** The interfaces of the stadium schema that hold a colour. *)
Definition color_sites : list Decl.interface := Decl.interfaces_using "Color".

End Stadium.

(** ** The integration harness ([test/room.js])

    A test body is the sequence of its effects; [describe] builds a suite
    from the process environment, and [run] is mocha's schedule for it. *)

Module Harness.

(** How the test ends once the room link arrives: the handler resolves the
    promise the test returned, or calls mocha's [done]. *)
Inductive completion : Type := ResolvePromise | CallDone.

Inductive action : Type :=
| Delay (ms : Z)                      (* await delay(ms) *)
| SetTimeout (ms : Z)                    (* this.timeout(ms) *)
| RequireUncached (module : string)   (* requireUncached(module) *)
| HBInit (config : JS.value)          (* await HBInit({...}) *)
| OnRoomLink (c : completion)         (* room.onRoomLink = function ... *)
| SkipSelf                            (* this.skip() *)
| Done.                               (* return done() *)

(** [it] or [it.skip] *)
Inductive registration : Type := it | it_skip.

Record test : Type :=
  { title : string; registered : registration; body : list action }.

Record suite : Type :=
  { suite_title : string;
    suite_timeout : Z;
    beforeEach : list action;
    tests : list test }.

Definition token (env : gmap string string) : JS.value :=
  JS.or (JS.getenv env "CI_HB_HEADLESS_TOKEN")
        (JS.getenv env "TEST_HB_HEADLESS_TOKEN").

Definition proxy (env : gmap string string) : JS.value :=
  JS.or (JS.getenv env "CI_HB_PROXY") (JS.getenv env "TEST_HB_PROXY").

(** [cond ? it : it.skip] *)
Definition it_if (cond : JS.value) : registration :=
  if JS.truthy cond then it else it_skip.

(** *** [src/test/room.js] *)

Module room_js.

Definition create_config (env : gmap string string) : JS.value :=
  JS.VObj
    [ ("roomName", JS.VStr "Haxball.JS");
      ("maxPlayers", JS.VNum 16);
      ("public", JS.VBool false);
      ("noPlayer", JS.VBool true);
      ("debug", JS.VBool true);
      ("token", token env) ].

Definition create_body (env : gmap string string) : list action :=
  [ SetTimeout 30000;
    RequireUncached "../build/index";
    HBInit (create_config env);
    OnRoomLink ResolvePromise ].

Definition proxy_config (env : gmap string string) : JS.value :=
  JS.VObj
    [ ("roomName", JS.VStr "Haxball.JS");
      ("maxPlayers", JS.VNum 16);
      ("public", JS.VBool false);
      ("noPlayer", JS.VBool true);
      ("debug", JS.VBool true);
      ("token", token env);
      ("proxy", proxy env) ].

Definition proxy_body (env : gmap string string) : list action :=
  SetTimeout 30000
  :: (if JS.loose_eq_string (JS.getenv env "CI_HB_PROXY") "1" then
        [SkipSelf]
      else
        [ RequireUncached "../build/index";
          HBInit (proxy_config env);
          OnRoomLink ResolvePromise ]).

Definition describe (env : gmap string string) : suite :=
  {| suite_title := "HBInit Tests";
     suite_timeout := 10000;
     beforeEach := [Delay 5000];
     tests :=
       [ {| title := "should create room";
            registered := it;
            body := create_body env |};
         {| title := "should create room (proxy)";
            registered := it_if (proxy env);
            body := proxy_body env |} ] |}.

End room_js.

(** *** The other revision of the harness ([src/unnamed/part_000]) *)

Module part_000.

Definition create_config (env : gmap string string) : JS.value :=
  JS.VObj
    [ ("roomName", JS.VStr "Haxball.JS");
      ("maxPlayers", JS.VNum 16);
      ("public", JS.VBool false);
      ("noPlayer", JS.VBool true);
      ("debug", JS.VBool true);
      ("token", token env) ].

Definition create_body (env : gmap string string) : list action :=
  [ SetTimeout 30000;
    RequireUncached "../build/index";
    HBInit (create_config env);
    OnRoomLink CallDone ].

Definition proxy_config (env : gmap string string) : JS.value :=
  JS.VObj
    [ ("roomName", JS.VStr "Haxball.JS");
      ("maxPlayers", JS.VNum 16);
      ("public", JS.VBool false);
      ("noPlayer", JS.VBool true);
      ("debug", JS.VBool true);
      ("proxy", proxy env);
      ("token", token env) ].

Definition proxy_body (env : gmap string string) : list action :=
  SetTimeout 30000
  :: (if JS.loose_eq_string (JS.getenv env "CI_HB_PROXY") "1" then
        [Done]
      else
        [ RequireUncached "../build/index";
          HBInit (proxy_config env);
          OnRoomLink CallDone ]).

Definition describe (env : gmap string string) : suite :=
  {| suite_title := "HBInit Tests";
     suite_timeout := 10000;
     beforeEach := [Delay 5000];
     tests :=
       [ {| title := "should create room";
            registered := it_if (token env);
            body := create_body env |};
         {| title := "should create room (proxy)";
            registered := it_if (proxy env);
            body := proxy_body env |} ] |}.

End part_000.

(** *** mocha's schedule

    A test registered with [it.skip] is reported pending and nothing of it
    runs; for any other test the [beforeEach] hooks run, then the body. *)

Inductive event : Type :=
| Hook (a : action)
| Begin (t : string)
| Step (t : string) (a : action)
| Pending (t : string).

Definition run_test (hooks : list action) (t : test) : list event :=
  match registered t with
  | it_skip => [Pending (title t)]
  | it => map Hook hooks ++ Begin (title t) :: map (Step (title t)) (body t)
  end.

Definition run (s : suite) : list event :=
  flat_map (run_test (beforeEach s)) (tests s).

(** A variable is set when [process.env] has it. *)
Definition is_set (env : gmap string string) (k : string) : Prop :=
  is_Some (env !! k).

Definition token_supplied (env : gmap string string) : Prop :=
  is_set env "CI_HB_HEADLESS_TOKEN" ∨ is_set env "TEST_HB_HEADLESS_TOKEN".

Definition proxy_supplied (env : gmap string string) : Prop :=
  is_set env "CI_HB_PROXY" ∨ is_set env "TEST_HB_PROXY".

(** Every body that begins comes right after a delay of [ms]. *)
Definition delay_precedes (ms : Z) (trace : list event) : Prop :=
  ∀ before t after,
    trace = before ++ Begin t :: after →
    ∃ earlier, before = earlier ++ [Hook (Delay ms)].

(** A test runs only when [supplied] holds, and is pending when it does not. *)
Definition gated (t : string) (supplied : Prop) (trace : list event) : Prop :=
  (Begin t ∈ trace → supplied) ∧ (¬ supplied → Pending t ∈ trace).

(** The harness contract: the delay before each body, the room-creation
    test behind the token, the proxy test behind the proxy address. *)
Definition harness_contract (describe : gmap string string → suite) : Prop :=
  ∀ env,
    delay_precedes 5000 (run (describe env))
    ∧ gated "should create room" (token_supplied env) (run (describe env))
    ∧ gated "should create room (proxy)" (proxy_supplied env)
        (run (describe env)).

(** A variable holds something: it is set, and not to the empty string. *)
Definition is_nonempty (env : gmap string string) (k : string) : Prop :=
  ∃ s, env !! k = Some s ∧ s ≠ "".

(** The tests of a schedule, in the order they are reported. *)
Definition scheduled (trace : list event) : list string :=
  flat_map
    (fun e =>
       match e with
       | Begin t | Pending t => [t]
       | _ => []
       end)
    trace.

(** The calls of [HBInit] in a schedule: the test and the configuration. *)
Definition calls (trace : list event) : list (string * JS.value) :=
  flat_map
    (fun e =>
       match e with
       | Step t (HBInit config) => [(t, config)]
       | _ => []
       end)
    trace.

(** Walks down a schedule that is written out, to the places where it
    splits as [before ++ x :: after]. *)
Ltac scan H before :=
  destruct before as [|? before]; simpl in H;
  [ try discriminate H
  | first [ discriminate H | injection H as <- H; scan H before ] ].

Ltac written_out H :=
  unfold run_test, it_if, room_js.create_body, room_js.proxy_body,
    part_000.create_body, part_000.proxy_body in H;
  cbn [registered title body] in H.

End Harness.

(** ** Sample values *)

Module Sample.

(** A ball at rest at the origin. *)
Definition ball : gmap string Z :=
  list_to_map
    [ ("x", 0); ("y", 0); ("xspeed", 0); ("yspeed", 0); ("xgravity", 0);
      ("ygravity", 0); ("radius", 10); ("bCoeff", 1); ("invMass", 1);
      ("damping", 1); ("color", 16777215); ("cMask", 63); ("cGroup", 1) ]%Z.

(** The disc of a player standing at (-200, 30). *)
Definition player_disc : gmap string Z :=
  list_to_map
    [ ("x", -200); ("y", 30); ("xspeed", 0); ("yspeed", 0); ("xgravity", 0);
      ("ygravity", 0); ("radius", 15); ("bCoeff", 1); ("invMass", 1);
      ("damping", 1); ("color", 15035990); ("cMask", 39); ("cGroup", 2) ]%Z.

Definition striker : Host.Participant :=
  {| Host.snapshot :=
       {| Host.id := 1; Host.name := "striker"; Host.team := Host.Red;
          Host.admin := false;
          Host.position := Some {| Host.x := -200; Host.y := 30 |};
          Host.auth := None; Host.conn := "3137322E31362E302E31" |};
     Host.disc := Some player_disc;
     Host.input :=
       {| Host.up := false; Host.down := false; Host.left := false;
          Host.right := true; Host.shoot := false |} |}.

Definition room : Host.Room :=
  {| Host.participants := [striker]; Host.discs := [ball] |}.

(** A stadium of two vertexes whose only segment ends at vertex 2. *)
Definition corner : Vertex.t :=
  {| Vertex.bCoef := None; Vertex.cMask := None; Vertex.cGroup := None;
     Vertex.trait := None |}.

Definition wall (v0 v1 : Z) : Segment.t :=
  {| Segment.v0 := v0; Segment.v1 := v1; Segment.bCoef := None;
     Segment.curve := None; Segment.curveF := None; Segment.bias := None;
     Segment.vis := None; Segment.color := Some (ColorString "FF0000");
     Segment.cMask := None; Segment.cGroup := None; Segment.trait := None |}.

Definition stadium (segments : list Segment.t) : StadiumObject.t :=
  {| StadiumObject.name := "Sample";
     StadiumObject.width := None; StadiumObject.height := None;
     StadiumObject.maxViewWidth := None; StadiumObject.cameraFollow := None;
     StadiumObject.spawnDistance := None; StadiumObject.canBeStored := None;
     StadiumObject.kickOffReset := None; StadiumObject.bg := None;
     StadiumObject.traits := None;
     StadiumObject.vertexes := [corner; corner];
     StadiumObject.segments := segments;
     StadiumObject.goals := []; StadiumObject.discs := [];
     StadiumObject.planes := []; StadiumObject.joints := [];
     StadiumObject.redSpawnPoints := None;
     StadiumObject.blueSpawnPoints := None;
     StadiumObject.playerPhysics := None;
     StadiumObject.ballPhysics := None |}.

End Sample.

(** * Properties *)

(** ** The declarations *)

Section Declarations.

Import Decl.

Lemma members_without_extends (i : interface) :
  i_extends i = [] → all_members i = i_members i.
Proof.
  intros H. unfold all_members. destruct (length interfaces); [done|].
  simpl. rewrite H. simpl. by rewrite app_nil_r.
Qed.

(** C6. The configuration that [HBInit] of module [haxball.js] consumes has
    exactly the options roomName, playerName, password, maxPlayers, public,
    geo, token, noPlayer, proxy, debug and webrtc; in it token is required
    and proxy, debug and webrtc are optional, and every member of the base
    [RoomConfigObject] is optional. *)
Theorem RoomConfig_options :
  names (all_members RoomConfig)
    ≡ₚ [ "roomName"; "playerName"; "password"; "maxPlayers"; "public"; "geo";
         "token"; "noPlayer"; "proxy"; "debug"; "webrtc" ]
  ∧ map p_type (f_params HBInit_module) = [TRef "RoomConfig"]
  ∧ m_optional <$> find_member "token" (all_members RoomConfig) = Some false
  ∧ Forall
      (λ n, m_optional <$> find_member n (all_members RoomConfig) = Some true)
      ["proxy"; "debug"; "webrtc"]
  ∧ Forall (λ m, m_optional m = true) (all_members RoomConfigObject).
Proof.
  split; [|split; [|split; [|split]]].
  - apply (bool_decide_unpack _). by vm_compute.
  - reflexivity.
  - reflexivity.
  - repeat constructor.
  - rewrite members_without_extends by reflexivity.
    repeat constructor.
Qed.

(** C10. [Vertex] declares the optional members bCoef, cMask, cGroup and
    trait and nothing else, so no [x] and no [y]; the stadium's [vertexes]
    are an array of such values, and a segment names two of them by the
    numbers [v0] and [v1]. *)
Theorem Vertex_declares_no_coordinates :
  names (all_members Vertex) = ["bCoef"; "cMask"; "cGroup"; "trait"]
  ∧ Forall (λ m, m_optional m = true) (all_members Vertex)
  ∧ has_member "x" (all_members Vertex) = false
  ∧ has_member "y" (all_members Vertex) = false
  ∧ find_member "vertexes" (all_members StadiumObject)
    = Some (req "vertexes" (TArray (TRef "Vertex")))
  ∧ find_member "v0" (all_members Segment) = Some (req "v0" TNumber)
  ∧ find_member "v1" (all_members Segment) = Some (req "v1" TNumber).
Proof.
  rewrite !members_without_extends by reflexivity.
  repeat split; try reflexivity. repeat constructor.
Qed.

(** The names the specification gives for the collision flags. *)
Lemma CollisionFlags_listed_in_spec :
  Forall (λ n, has_member n (all_members CollisionFlagsObject) = true)
    ["ball"; "red"; "blue"; "wall"; "kick"; "score"; "c0"; "c1"; "c2"; "c3"].
Proof. repeat constructor. Qed.

(** C8, as stated, fails: the table is not made of ball, red, blue, wall,
    kick, score and the four custom slots only, for [redKO] is a member
    (and so are [blueKO] and [all]). *)
Lemma CollisionFlags_not_only_ten :
  ¬ names (all_members CollisionFlagsObject)
      ≡ₚ ["ball"; "red"; "blue"; "wall"; "kick"; "score";
          "c0"; "c1"; "c2"; "c3"].
Proof.
  intros H. apply Permutation_length in H. vm_compute in H. discriminate.
Qed.

(** C8, amended. The room's [CollisionFlags] property is a
    [CollisionFlagsObject], whose members are the numbers ball, red, blue,
    redKO, blueKO, wall, all, kick and score and exactly four custom slots
    c0, c1, c2 and c3; cMask and cGroup of a disc are numbers as well. *)
Theorem CollisionFlags_members :
  find_member "CollisionFlags" (all_members RoomObject)
  = Some (req "CollisionFlags" (TRef "CollisionFlagsObject"))
  ∧ names (all_members CollisionFlagsObject)
      ≡ₚ ["ball"; "red"; "blue"; "redKO"; "blueKO"; "wall"; "all"; "kick";
          "score"; "c0"; "c1"; "c2"; "c3"]
  ∧ List.filter is_custom_flag (names (all_members CollisionFlagsObject))
    = ["c0"; "c1"; "c2"; "c3"]
  ∧ Forall (λ m, m_optional m = false ∧ m_shape m = Property TNumber)
      (all_members CollisionFlagsObject)
  ∧ find_member "cMask" (all_members DiscPropertiesObject)
    = Some (req "cMask" TNumber)
  ∧ find_member "cGroup" (all_members DiscPropertiesObject)
    = Some (req "cGroup" TNumber).
Proof.
  rewrite !members_without_extends by reflexivity.
  split; [reflexivity|]. split; [apply (bool_decide_unpack _); by vm_compute|].
  split; [reflexivity|]. split; [|split; reflexivity].
  repeat constructor.
Qed.

(** The handlers of the room and what they return: [onPlayerChat] alone
    returns something, a boolean or nothing. *)
Lemma handlers_return_void_except_onPlayerChat :
  names (handlers RoomObject)
  = [ "onPlayerInput"; "onPlayerJoin"; "onPlayerLeave"; "onTeamVictory";
      "onPlayerChat"; "onPlayerBallKick"; "onTeamGoal"; "onGameStart";
      "onGameStop"; "onPlayerAdminChange"; "onPlayerTeamChange";
      "onPlayerKicked"; "onGameTick"; "onGamePause"; "onGameUnpause";
      "onPositionsReset"; "onPlayerActivity"; "onStadiumChange";
      "onRoomLink"; "onKickRateLimitSet"; "onTeamsLockChange" ]
  ∧ Forall
      (λ m, return_type m
            = Some (if String.eqb (m_name m) "onPlayerChat"
                    then TUnion [TBoolean; TVoid] else TVoid))
      (handlers RoomObject).
Proof. split; [reflexivity|]. vm_compute. repeat constructor. Qed.

(** C5, at the member where the declaration departs from it: the handler
    [onPlayerInput] is declared without [?], a required method, while each
    of the other twenty handlers is optional. *)
Theorem onPlayerInput_is_not_optional :
  find_member "onPlayerInput" (handlers RoomObject)
  = Some (meth "onPlayerInput"
            [arg "player" (TRef "PlayerObject");
             arg "input" (TRef "InputObject")] TVoid)
  ∧ m_optional <$> find_member "onPlayerInput" (all_members RoomObject)
    = Some false
  ∧ ¬ Forall (λ m, m_optional m = true) (handlers RoomObject)
  ∧ Forall (λ m, m_optional m = negb (String.eqb (m_name m) "onPlayerInput"))
      (handlers RoomObject).
Proof.
  split; [reflexivity|]. split; [reflexivity|]. split.
  - intros H. vm_compute in H. inversion H as [|? ? Hx _]. discriminate Hx.
  - vm_compute. repeat constructor.
Qed.

(** C3, as stated, fails: not every [HBInit] returns a promise, for the
    ambient [HBInit] of the host returns the [RoomObject] itself. *)
Lemma HBInit_ambient_is_synchronous :
  ¬ Forall (λ f, is_promise (f_return f) = true) initializers.
Proof.
  intros H. vm_compute in H. inversion H as [|? ? _ H'].
  inversion H' as [|? ? Hx _]. discriminate Hx.
Qed.

(** C3, amended. There are two functions [HBInit]. The one module
    [haxball.js] exports takes a [RoomConfig] and returns
    [Promise<RoomObject>], never the [RoomObject] itself; the ambient one of
    the host takes a [RoomConfigObject] and returns the [RoomObject]. *)
Theorem HBInit_return_types :
  initializers = [HBInit_module; HBInit_ambient]
  ∧ map p_type (f_params HBInit_module) = [TRef "RoomConfig"]
  ∧ f_return HBInit_module = TGeneric "Promise" [TRef "RoomObject"]
  ∧ is_promise (f_return HBInit_module) = true
  ∧ map p_type (f_params HBInit_ambient) = [TRef "RoomConfigObject"]
  ∧ f_return HBInit_ambient = TRef "RoomObject".
Proof. repeat split. Qed.

(** The argument of the two setters is [Partial<DiscPropertiesObject>]:
    the thirteen properties of a disc, each of them optional. *)
Lemma PartialDiscProperties_members :
  a_body PartialDiscProperties = TGeneric "Partial" [TRef "DiscPropertiesObject"]
  ∧ names (Partial (all_members DiscPropertiesObject))
    = names (all_members DiscPropertiesObject)
  ∧ Forall (λ m, m_optional m = true)
      (Partial (all_members DiscPropertiesObject)).
Proof.
  rewrite !members_without_extends by reflexivity.
  split; [reflexivity|]. split; [reflexivity|]. repeat constructor.
Qed.

End Declarations.

(** ** The host: accessors and partial updates *)

Section HostFacts.

Import Host.

Lemma index_Some {A : Type} (l : list A) (i : Z) (a : A) :
  JS.index l i = Some a ↔ (0 ≤ i)%Z ∧ l !! Z.to_nat i = Some a.
Proof.
  unfold JS.index. destruct (0 <=? i)%Z eqn:E.
  - apply Z.leb_le in E. tauto.
  - apply Z.leb_gt in E. split; [discriminate|lia].
Qed.

Lemma index_None {A : Type} (l : list A) (i : Z) :
  JS.index l i = None ↔ ¬ (0 ≤ i < Z.of_nat (length l))%Z.
Proof.
  unfold JS.index. destruct (0 <=? i)%Z eqn:E.
  - apply Z.leb_le in E. rewrite lookup_ge_None. lia.
  - apply Z.leb_gt in E. split; [lia|done].
Qed.

Lemma find_participant_None (r : Room) (playerId : Z) :
  playerId ∉ map id (getPlayerList r) → find_participant r playerId = None.
Proof.
  unfold find_participant, getPlayerList. destruct r as [ps ds]. simpl.
  induction ps as [|p ps IH]; simpl; [done|].
  intros Hnot. apply not_elem_of_cons in Hnot as [Hne Hnot].
  unfold is_player at 1. destruct (Z.eqb_spec (id (snapshot p)) playerId).
  - congruence.
  - auto.
Qed.

Lemma find_participant_Some (r : Room) (playerId : Z) (p : Participant) :
  find_participant r playerId = Some p →
  id (snapshot p) = playerId ∧ snapshot p ∈ getPlayerList r.
Proof.
  unfold find_participant, getPlayerList. intros H.
  apply find_some in H as [Hin Hid]. split.
  - by apply Z.eqb_eq.
  - apply list_elem_of_fmap. exists p. split; [done|].
    by apply list_elem_of_In.
Qed.

Lemma assign_fields_cons (g : string) (fields : list string)
    (properties d : gmap string Z) :
  assign_fields (g :: fields) properties d
  = match properties !! g with
    | Some v => <[g := v]> (assign_fields fields properties d)
    | None => assign_fields fields properties d
    end.
Proof. reflexivity. Qed.

(** What [assign_fields] leaves in each property. *)
Lemma assign_fields_lookup (fields : list string)
    (properties d : gmap string Z) (f : string) :
  assign_fields fields properties d !! f
  = if decide (f ∈ fields) then
      match properties !! f with Some v => Some v | None => d !! f end
    else d !! f.
Proof.
  induction fields as [|g fields IH].
  - case_decide as H; [by apply elem_of_nil in H|done].
  - rewrite assign_fields_cons. destruct (decide (f = g)) as [->|Hne].
    + rewrite decide_True by apply list_elem_of_here.
      destruct (properties !! g) as [v|] eqn:E.
      * by rewrite lookup_insert_eq.
      * rewrite IH. by case_decide.
    + assert (match properties !! g with
              | Some v => <[g:=v]> (assign_fields fields properties d)
              | None => assign_fields fields properties d
              end !! f = assign_fields fields properties d !! f) as ->.
      { destruct (properties !! g); [by rewrite lookup_insert_ne|done]. }
      rewrite IH. destruct (decide (f ∈ fields)) as [Hin|Hnin].
      * by rewrite decide_True by (by apply list_elem_of_further).
      * rewrite decide_False; [done|]. by intros [?|?]%elem_of_cons.
Qed.

Lemma assign_partial_update (properties d : gmap string Z) :
  partial_update properties d (assign properties d).
Proof.
  split.
  - intros f v Hin Hf. unfold assign. rewrite assign_fields_lookup.
    rewrite decide_True by done. by rewrite Hf.
  - intros f Hf. unfold assign. rewrite assign_fields_lookup, Hf.
    by case_decide.
Qed.

Lemma assign_x (d : gmap string Z) (v : Z) :
  assign {["x" := v]} d = <["x" := v]> d.
Proof.
  apply map_eq. intros f. unfold assign. rewrite assign_fields_lookup.
  destruct (decide (f = "x")) as [->|Hne].
  - rewrite lookup_insert_eq, lookup_singleton_eq.
    by rewrite decide_True by (apply (bool_decide_unpack _); by vm_compute).
  - rewrite lookup_insert_ne, lookup_singleton_ne by done. by case_decide.
Qed.

(** A full disc stays full. *)
Lemma assign_is_full (properties d : gmap string Z) :
  is_full d → is_full (assign properties d).
Proof.
  unfold is_full. rewrite !Forall_forall. intros Hd f Hf.
  unfold assign. rewrite assign_fields_lookup.
  case_decide; [|by apply Hd]. destruct (properties !! f); [by eexists|by apply Hd].
Qed.

Lemma getDiscProperties_setDiscProperties (r : Room) (i : Z)
    (properties d : gmap string Z) :
  getDiscProperties r i = Some d →
  getDiscProperties (setDiscProperties r i properties) i
  = Some (assign properties d).
Proof.
  unfold getDiscProperties, setDiscProperties. intros H.
  apply index_Some in H as [Hi H].
  destruct (0 <=? i)%Z eqn:E; [|apply Z.leb_gt in E; lia].
  simpl. apply index_Some. split; [done|].
  by rewrite list_lookup_alter_eq, H.
Qed.

(** The other discs, the number of discs and the players are as before. *)
Lemma setDiscProperties_frame (r : Room) (i j : Z)
    (properties : gmap string Z) :
  i ≠ j →
  getDiscProperties (setDiscProperties r i properties) j
  = getDiscProperties r j
  ∧ getDiscCount (setDiscProperties r i properties) = getDiscCount r
  ∧ participants (setDiscProperties r i properties) = participants r.
Proof.
  intros Hne. unfold getDiscProperties, getDiscCount, setDiscProperties.
  destruct (0 <=? i)%Z eqn:E; [|done]. apply Z.leb_le in E. simpl.
  split; [|split; [by rewrite length_alter|done]].
  unfold JS.index. destruct (0 <=? j)%Z eqn:Ej; [|done].
  apply Z.leb_le in Ej. apply list_lookup_alter_ne. lia.
Qed.

Lemma getPlayerDiscProperties_setPlayerDiscProperties (r : Room)
    (playerId : Z) (properties d : gmap string Z) :
  getPlayerDiscProperties r playerId = Some d →
  getPlayerDiscProperties (setPlayerDiscProperties r playerId properties)
    playerId
  = Some (assign properties d).
Proof.
  unfold getPlayerDiscProperties, setPlayerDiscProperties, find_participant.
  destruct r as [ps ds]. simpl.
  induction ps as [|p ps IH]; simpl; [done|].
  destruct (is_player playerId p) eqn:E; simpl.
  - unfold is_player in *. simpl. rewrite E. simpl.
    intros ->. done.
  - rewrite E. apply IH.
Qed.

(** C1. A partial update of a disc changes the properties the argument
    carries and no other.  Whenever [getDiscProperties] reads a disc at an
    index, whoever is or is not in the room, a read after
    [setDiscProperties] at that index shows the argument's value for each
    declared property the argument has and the previous value for every
    property it has not; with the argument [{x: 5}] the disc read back is
    the previous one with [x] set to 5.  Whenever
    [getPlayerDiscProperties] reads the disc of a player, whatever discs
    the stadium has, the same holds of [setPlayerDiscProperties]. *)
Theorem setDiscProperties_partial_update (r : Room) (discIndex playerId : Z)
    (properties d dp : gmap string Z) :
  (getDiscProperties r discIndex = Some d →
   (∃ d',
      getDiscProperties (setDiscProperties r discIndex properties) discIndex
      = Some d'
      ∧ partial_update properties d d')
   ∧ getDiscProperties (setDiscProperties r discIndex {["x" := 5%Z]})
       discIndex
     = Some (<["x" := 5%Z]> d))
  ∧ (getPlayerDiscProperties r playerId = Some dp →
     (∃ dp',
        getPlayerDiscProperties
          (setPlayerDiscProperties r playerId properties) playerId
        = Some dp'
        ∧ partial_update properties dp dp')
     ∧ getPlayerDiscProperties
         (setPlayerDiscProperties r playerId {["x" := 5%Z]}) playerId
       = Some (<["x" := 5%Z]> dp)).
Proof.
  split.
  - intros Hd. split.
    + exists (assign properties d). split.
      * by apply getDiscProperties_setDiscProperties.
      * apply assign_partial_update.
    + rewrite <- assign_x. by apply getDiscProperties_setDiscProperties.
  - intros Hdp. split.
    + exists (assign properties dp). split.
      * by apply getPlayerDiscProperties_setPlayerDiscProperties.
      * apply assign_partial_update.
    + rewrite <- assign_x.
      by apply getPlayerDiscProperties_setPlayerDiscProperties.
Qed.

(** The update of the ball in a room without players, and the update of a
    player's disc in a room whose stadium has no disc. *)
Lemma setDiscProperties_partial_update_witness :
  getPlayerList {| participants := []; discs := [Sample.ball] |} = []
  ∧ getDiscProperties {| participants := []; discs := [Sample.ball] |} 0
    = Some Sample.ball
  ∧ is_full Sample.ball
  ∧ getDiscProperties
      (setDiscProperties {| participants := []; discs := [Sample.ball] |} 0
         {["x" := 5%Z]}) 0
    = Some (<["x" := 5%Z]> Sample.ball)
  ∧ getDiscCount {| participants := [Sample.striker]; discs := [] |} = 0%Z
  ∧ getPlayerDiscProperties
      {| participants := [Sample.striker]; discs := [] |} 1
    = Some Sample.player_disc
  ∧ getPlayerDiscProperties
      (setPlayerDiscProperties
         {| participants := [Sample.striker]; discs := [] |} 1
         {["x" := 5%Z]}) 1
    = Some (<["x" := 5%Z]> Sample.player_disc).
Proof.
  split; [reflexivity|]. split; [reflexivity|].
  split; [apply (bool_decide_unpack _); by vm_compute|].
  split.
  { exact (proj2 (proj1 (setDiscProperties_partial_update
                           {| participants := []; discs := [Sample.ball] |}
                           0 1 ∅ Sample.ball ∅)
                    eq_refl)). }
  split; [reflexivity|]. split; [reflexivity|].
  exact (proj2 (proj2 (setDiscProperties_partial_update
                         {| participants := [Sample.striker]; discs := [] |}
                         0 1 ∅ ∅ Sample.player_disc)
                  eq_refl)).
Defined.

(** C2. For an identifier that names no connected player, [getPlayer],
    [getPlayerDiscProperties] and [getInputObject] return [null], and so
    does [getDiscProperties] for an index that is not below the disc count;
    the four are total functions, declared to return the entity or [null],
    so absence is a value and no error. *)
Theorem accessors_return_null_when_absent (r : Room) (playerId discIndex : Z) :
  playerId ∉ map Host.id (getPlayerList r) →
  ¬ (0 ≤ discIndex < getDiscCount r)%Z →
  getPlayer r playerId = None
  ∧ getPlayerDiscProperties r playerId = None
  ∧ getInputObject r playerId = None
  ∧ getDiscProperties r discIndex = None
  ∧ Forall
      (λ a, Decl.allows_null
              <$> (Decl.find_member a (Decl.all_members Decl.RoomObject)
                     ≫= Decl.return_type)
            = Some true)
      ["getPlayer"; "getDiscProperties"; "getPlayerDiscProperties";
       "getInputObject"].
Proof.
  intros Hp Hd. apply find_participant_None in Hp.
  unfold getPlayer, getPlayerDiscProperties, getInputObject. rewrite Hp.
  repeat (split; [done|]). split.
  - by apply index_None.
  - vm_compute. repeat constructor.
Qed.

Lemma accessors_return_null_when_absent_witness :
  (7%Z ∉ map Host.id (getPlayerList Sample.room))
  ∧ (¬ (0 ≤ 1 < getDiscCount Sample.room)%Z)
  ∧ getPlayer Sample.room 7 = None
  ∧ getPlayerDiscProperties Sample.room 7 = None
  ∧ getInputObject Sample.room 7 = None
  ∧ getDiscProperties Sample.room 1 = None.
Proof.
  assert (H1 : 7%Z ∉ map Host.id (getPlayerList Sample.room))
    by (apply (bool_decide_unpack _); by vm_compute).
  assert (H2 : ¬ (0 ≤ 1 < getDiscCount Sample.room)%Z)
    by (unfold getDiscCount; simpl; lia).
  split; [exact H1|]. split; [exact H2|].
  pose proof (accessors_return_null_when_absent Sample.room 7 1 H1 H2) as H.
  tauto.
Defined.

(** The accessors find what is there. *)
Lemma accessors_sample :
  getPlayer Sample.room 1 = Some (snapshot Sample.striker)
  ∧ getDiscProperties Sample.room 0 = Some Sample.ball
  ∧ getPlayerDiscProperties Sample.room 1 = Some Sample.player_disc
  ∧ getInputObject Sample.room 1 = Some (input Sample.striker)
  ∧ getDiscCount Sample.room = 1%Z.
Proof. repeat split. Qed.

(** A partial update of two properties of the ball. *)
Lemma assign_sample :
  assign {["x" := 5%Z; "yspeed" := (-3)%Z]} Sample.ball !! "x" = Some 5%Z
  ∧ assign {["x" := 5%Z; "yspeed" := (-3)%Z]} Sample.ball !! "yspeed"
    = Some (-3)%Z
  ∧ assign {["x" := 5%Z; "yspeed" := (-3)%Z]} Sample.ball !! "radius"
    = Some 10%Z.
Proof. repeat split; by vm_compute. Qed.

End HostFacts.

(** ** Stadium files: indices and colours *)

Section StadiumFacts.

Import Stadium.

Lemma in_range_resolves {A : Type} (l : list A) (i : Z) :
  in_range i (length l) = true ↔ resolves l i.
Proof.
  unfold in_range, resolves, JS.index. rewrite andb_true_iff.
  destruct (0 <=? i)%Z eqn:E.
  - apply Z.leb_le in E. rewrite Z.ltb_lt, lookup_lt_is_Some. split.
    + intros [_ H]. lia.
    + intros H. split; [done|lia].
  - split; [intros [? _]; discriminate|]. by intros [? ?].
Qed.

Lemma forallb_Forall {A : Type} (f : A → bool) (P : A → Prop) (l : list A) :
  (∀ a, f a = true ↔ P a) → forallb f l = true ↔ Forall P l.
Proof.
  intros Hf. induction l as [|a l IH]; simpl.
  - split; [constructor|done].
  - rewrite andb_true_iff, Forall_cons, Hf, IH. done.
Qed.

(** C4. The validator accepts a stadium exactly when every segment's [v0]
    and [v1] are positions of its [vertexes] and every joint's [d0] and
    [d1] are positions of its [discs]; a stadium with an index out of range
    is rejected. *)
Theorem validate_iff_indices_valid (s : StadiumObject.t) :
  (validate s = true ↔ indices_valid s)
  ∧ (validate s = false ↔ ¬ indices_valid s).
Proof.
  assert (H : validate s = true ↔ indices_valid s).
  { unfold validate, indices_valid. rewrite andb_true_iff.
    rewrite (forallb_Forall (segment_ok s)
               (λ g, resolves (StadiumObject.vertexes s) (Segment.v0 g)
                     ∧ resolves (StadiumObject.vertexes s) (Segment.v1 g))).
    - rewrite (forallb_Forall (joint_ok s)
                 (λ j, resolves (StadiumObject.discs s) (Joint.d0 j)
                       ∧ resolves (StadiumObject.discs s) (Joint.d1 j)));
        [done|].
      intros j. unfold joint_ok.
      by rewrite andb_true_iff, !in_range_resolves.
    - intros g. unfold segment_ok.
      by rewrite andb_true_iff, !in_range_resolves. }
  split; [exact H|]. rewrite <- H. by destruct (validate s).
Qed.

(** The declared type takes the stadium whose segment ends at a vertex that
    is not there; the validator does not. *)
Lemma validate_sample :
  validate (Sample.stadium [Sample.wall 0 1]) = true
  ∧ validate (Sample.stadium [Sample.wall 0 2]) = false
  ∧ validate (Sample.stadium [Sample.wall (-1) 1]) = false.
Proof. repeat split. Qed.

Lemma Color_of_to_value (c : Color) :
  Color_of_value (Color_to_value c) = Some c.
Proof. by destruct c. Qed.

Lemma Color_to_of_value (v : JS.value) (c : Color) :
  Color_of_value v = Some c → Color_to_value c = v.
Proof.
  unfold Color_of_value. intros H.
  repeat match type of H with
         | context [match ?x with _ => _ end] => destruct x; try discriminate
         end;
    by inversion H.
Qed.

(** C7. Each of the three forms of a colour, the string ["transparent"], a
    string of six hexadecimal digits and a triplet of numbers, belongs to
    the type [Color], and reading it from the stadium and writing it again
    gives the same value; the colour of a segment, of a disc, of a joint and
    of the background have that type, and nothing else in the schema has. *)
Theorem Color_forms_round_trip (v : JS.value) :
  is_color_form v = true →
  JS.inhabits (Decl.a_body Decl.Color) v = true
  ∧ (∃ c, Color_of_value v = Some c
          ∧ Color_to_value c = v
          ∧ Color_of_value (Color_to_value c) = Some c)
  ∧ map Decl.i_name color_sites
    = ["Segment"; "Disc"; "Joint"; "BackgroundObject"]
  ∧ Forall
      (λ i, Decl.find_member "color" (Decl.all_members i)
            = Some (Decl.opt "color" (Decl.TRef "Color")))
      color_sites.
Proof.
  intros Hform.
  assert (Hread : ∃ c, Color_of_value v = Some c).
  { unfold is_color_form in Hform. unfold Color_of_value.
    repeat match type of Hform with
           | context [match ?x with _ => _ end] =>
               destruct x; try discriminate
           end; by eexists. }
  destruct Hread as [c Hc]. pose proof (Color_to_of_value _ _ Hc) as Hv.
  split; [|split; [|split]].
  - subst v. destruct c; simpl; [|reflexivity].
    by rewrite orb_true_r.
  - exists c. split; [done|]. split; [done|]. apply Color_of_to_value.
  - reflexivity.
  - vm_compute. repeat constructor.
Qed.

Lemma Color_forms_round_trip_witness :
  is_color_form (JS.VArr [JS.VNum 0; JS.VNum 200; JS.VNum 0]) = true
  ∧ is_color_form (JS.VStr "FF0000") = true
  ∧ is_color_form (JS.VStr "transparent") = true
  ∧ Color_of_value (JS.VArr [JS.VNum 0; JS.VNum 200; JS.VNum 0])
    = Some (ColorTriplet 0 200 0)
  ∧ JS.inhabits (Decl.a_body Decl.Color) (JS.VStr "FF0000") = true
  ∧ JS.inhabits (Decl.a_body Decl.Color) (JS.VStr "transparent") = true.
Proof.
  split; [reflexivity|]. split; [reflexivity|]. split; [reflexivity|].
  split; [reflexivity|].
  pose proof (Color_forms_round_trip (JS.VStr "FF0000") eq_refl)
    as (Hhex & _).
  pose proof (Color_forms_round_trip (JS.VStr "transparent") eq_refl)
    as (Htransparent & _).
  exact (conj Hhex Htransparent).
Defined.

End StadiumFacts.

(** ** The harness *)

Section HarnessFacts.

Import Harness.

Lemma truthy_getenv (env : gmap string string) (k : string) :
  JS.truthy (JS.getenv env k) = true → is_set env k.
Proof.
  unfold JS.getenv, is_set. destruct (env !! k); [by eexists|discriminate].
Qed.

Lemma truthy_or_getenv (env : gmap string string) (a b : string) :
  JS.truthy (JS.or (JS.getenv env a) (JS.getenv env b)) = true →
  is_set env a ∨ is_set env b.
Proof.
  unfold JS.or. destruct (JS.truthy (JS.getenv env a)) eqn:E; intros H.
  - left. by apply truthy_getenv.
  - right. by apply truthy_getenv.
Qed.

Lemma or_getenv_unset (env : gmap string string) (a b : string) :
  ¬ (is_set env a ∨ is_set env b) →
  JS.or (JS.getenv env a) (JS.getenv env b) = JS.VUndefined.
Proof.
  unfold is_set, JS.or, JS.getenv. intros H.
  destruct (env !! a); [exfalso; apply H; left; by eexists|].
  destruct (env !! b); [exfalso; apply H; right; by eexists|].
  reflexivity.
Qed.

(** A variable set to the empty string does not open the gate. *)
Lemma empty_token_is_skipped :
  token_supplied {["CI_HB_HEADLESS_TOKEN" := ""]}
  ∧ it_if (token {["CI_HB_HEADLESS_TOKEN" := ""]}) = it_skip.
Proof. split; [left; by eexists|reflexivity]. Qed.

Lemma steps_then_begin (t t' : string) (steps : list action)
    (rest before after : list event) :
  map (Step t) steps ++ rest = before ++ Begin t' :: after →
  ∃ before', before = map (Step t) steps ++ before'
             ∧ rest = before' ++ Begin t' :: after.
Proof.
  revert before. induction steps as [|a steps IH]; intros before H.
  - by exists before.
  - destruct before as [|e before]; [discriminate|].
    simpl in H. injection H as <- H.
    destruct (IH _ H) as (before' & -> & ->). by exists before'.
Qed.

(** Whatever the suite, a single [beforeEach] hook that delays puts the
    delay right before each body. *)
Lemma run_delay_precedes (s : suite) (ms : Z) :
  beforeEach s = [Delay ms] → delay_precedes ms (run s).
Proof.
  intros Hhook. unfold delay_precedes, run. rewrite Hhook.
  induction (tests s) as [|t ts IH]; intros before t' after H.
  - by destruct before.
  - simpl in H. unfold run_test at 1 in H. destruct (registered t).
    + simpl in H. destruct before as [|e1 before]; [discriminate|].
      injection H as <- H. destruct before as [|e2 before].
      * by exists [].
      * injection H as <- H.
        apply steps_then_begin in H as (before' & -> & H).
        destruct (IH _ _ _ H) as [earlier ->].
        exists (Hook (Delay ms) :: Begin (title t)
                  :: map (Step (title t)) (body t) ++ earlier).
        simpl. by rewrite <- app_assoc.
    + simpl in H. destruct before as [|e before]; [discriminate|].
      injection H as <- H. destruct (IH _ _ _ H) as [earlier ->].
      by exists (Pending (title t) :: earlier).
Qed.

(** The schedule of the two revisions, for each way the gates fall. *)
Lemma run_part_000 (env : gmap string string) :
  run (part_000.describe env)
  = run_test [Delay 5000]
      {| title := "should create room";
         registered := it_if (token env);
         body := part_000.create_body env |}
    ++ run_test [Delay 5000]
         {| title := "should create room (proxy)";
            registered := it_if (proxy env);
            body := part_000.proxy_body env |}.
Proof. unfold run. simpl. by rewrite app_nil_r. Qed.

Lemma run_room_js (env : gmap string string) :
  run (room_js.describe env)
  = Hook (Delay 5000) :: Begin "should create room"
      :: map (Step "should create room") (room_js.create_body env)
    ++ run_test [Delay 5000]
         {| title := "should create room (proxy)";
            registered := it_if (proxy env);
            body := room_js.proxy_body env |}.
Proof. unfold run. simpl. by rewrite app_nil_r. Qed.

Lemma Begin_in_run_test (hooks : list action) (t : test) (n : string) :
  Begin n ∈ run_test hooks t → n = title t ∧ registered t = it.
Proof.
  unfold run_test. destruct (registered t).
  - rewrite elem_of_app, elem_of_cons, !list_elem_of_fmap.
    intros [(a & H & _)|[H|(a & H & _)]]; try discriminate.
    by injection H as ->.
  - rewrite list_elem_of_singleton. discriminate.
Qed.

Lemma Pending_in_run_test (hooks : list action) (t : test) :
  registered t = it_skip → Pending (title t) ∈ run_test hooks t.
Proof. unfold run_test. intros ->. apply list_elem_of_here. Qed.

Lemma it_if_it (cond : JS.value) : it_if cond = it → JS.truthy cond = true.
Proof. unfold it_if. by destruct (JS.truthy cond). Qed.

(** A test registered through [cond ? it : it.skip] on a pair of variables
    is gated by them. *)
Lemma gated_run_test (hooks : list action) (n a b : string)
    (steps : list action) (env : gmap string string)
    (before after : list event) :
  (∀ t, Begin t ∈ before ++ after → t ≠ n) →
  gated n (is_set env a ∨ is_set env b)
    (before
     ++ run_test hooks
          {| title := n;
             registered := it_if (JS.or (JS.getenv env a) (JS.getenv env b));
             body := steps |}
     ++ after).
Proof.
  intros Hother. split.
  - rewrite !elem_of_app. intros [H|[H|H]].
    + exfalso. apply (Hother n); [|done]. apply elem_of_app. by left.
    + apply Begin_in_run_test in H as [_ H]. simpl in H.
      by apply truthy_or_getenv, it_if_it.
    + exfalso. apply (Hother n); [|done]. apply elem_of_app. by right.
  - intros Hunset. rewrite !elem_of_app. right. left.
    apply (Pending_in_run_test hooks
             {| title := n;
                registered :=
                  it_if (JS.or (JS.getenv env a) (JS.getenv env b));
                body := steps |}).
    simpl. by rewrite or_getenv_unset.
Qed.

(** C9, as stated, fails for [src/test/room.js]: with no variable set its
    room-creation test still runs. *)
Lemma room_js_creates_room_without_token :
  ¬ harness_contract room_js.describe.
Proof.
  intros H. destruct (H ∅) as (_ & [Hrun _] & _).
  assert (Hin : Begin "should create room" ∈ run (room_js.describe ∅)).
  { rewrite run_room_js. apply list_elem_of_further, list_elem_of_here. }
  destruct (Hrun Hin) as [[? Hs]|[? Hs]]; by rewrite lookup_empty in Hs.
Qed.

(** C9, amended. In both revisions of the harness a delay of 5000 ms comes
    right before each test body that runs, and the proxy test runs only
    when CI_HB_PROXY or TEST_HB_PROXY is set and is skipped otherwise. The
    room-creation test is behind CI_HB_HEADLESS_TOKEN or
    TEST_HB_HEADLESS_TOKEN in the revision [part_000]; in
    [src/test/room.js] it is registered with a plain [it] and runs in every
    environment. *)
Theorem harness_gates :
  harness_contract part_000.describe
  ∧ ∀ env,
      delay_precedes 5000 (run (room_js.describe env))
      ∧ gated "should create room (proxy)" (proxy_supplied env)
          (run (room_js.describe env))
      ∧ Begin "should create room" ∈ run (room_js.describe env).
Proof.
  split.
  - intros env. split; [by apply run_delay_precedes|]. split.
    + rewrite run_part_000.
      apply (gated_run_test [Delay 5000] "should create room"
               "CI_HB_HEADLESS_TOKEN" "TEST_HB_HEADLESS_TOKEN"
               (part_000.create_body env) env []).
      intros t Hin. apply Begin_in_run_test in Hin as [-> _]. done.
    + rewrite run_part_000.
      rewrite <- (app_nil_r (run_test _ {| title := "should create room (proxy)";
                                           registered := _; body := _ |})).
      apply (gated_run_test [Delay 5000] "should create room (proxy)"
               "CI_HB_PROXY" "TEST_HB_PROXY"
               (part_000.proxy_body env) env).
      intros t Hin. rewrite app_nil_r in Hin.
      apply Begin_in_run_test in Hin as [-> _]. done.
  - intros env. split; [by apply run_delay_precedes|]. split.
    + rewrite run_room_js.
      rewrite <- (app_nil_r (run_test _ _)).
      apply (gated_run_test [Delay 5000] "should create room (proxy)"
               "CI_HB_PROXY" "TEST_HB_PROXY"
               (room_js.proxy_body env) env
               (Hook (Delay 5000) :: Begin "should create room"
                  :: map (Step "should create room")
                       (room_js.create_body env))).
      intros t Hin. rewrite app_nil_r in Hin.
      apply elem_of_cons in Hin as [Hin|Hin]; [discriminate|].
      apply elem_of_cons in Hin as [Hin|Hin]; [by injection Hin as ->|].
      apply list_elem_of_fmap in Hin as (a & Hin & _). discriminate.
    + rewrite run_room_js. apply list_elem_of_further, list_elem_of_here.
Qed.

(** With CI_HB_PROXY set to ["1"] the proxy test begins and stops before it
    calls [HBInit]: [room.js] marks it skipped, [part_000] reports it
    done. *)
Lemma proxy_test_in_CI :
  room_js.proxy_body {["CI_HB_PROXY" := "1"]} = [SetTimeout 30000; SkipSelf]
  ∧ part_000.proxy_body {["CI_HB_PROXY" := "1"]} = [SetTimeout 30000; Done]
  ∧ it_if (proxy {["CI_HB_PROXY" := "1"]}) = it.
Proof. repeat split. Qed.

(** With a token and no proxy address, the revision [part_000] runs the
    room-creation test after the delay and reports the proxy test
    pending. *)
Lemma part_000_with_token :
  run (part_000.describe {["TEST_HB_HEADLESS_TOKEN" := "thr1.AAAAAGb"]})
  = [ Hook (Delay 5000);
      Begin "should create room";
      Step "should create room" (SetTimeout 30000);
      Step "should create room" (RequireUncached "../build/index");
      Step "should create room"
        (HBInit
           (JS.VObj
              [ ("roomName", JS.VStr "Haxball.JS");
                ("maxPlayers", JS.VNum 16);
                ("public", JS.VBool false);
                ("noPlayer", JS.VBool true);
                ("debug", JS.VBool true);
                ("token", JS.VStr "thr1.AAAAAGb") ]));
      Step "should create room" (OnRoomLink CallDone);
      Pending "should create room (proxy)" ].
Proof. by vm_compute. Qed.

(** Without any variable, [part_000] runs nothing and [room.js] calls
    [HBInit] with an undefined token. *)
Lemma harness_in_empty_environment :
  run (part_000.describe ∅)
  = [Pending "should create room"; Pending "should create room (proxy)"]
  ∧ run (room_js.describe ∅)
    = [ Hook (Delay 5000);
        Begin "should create room";
        Step "should create room" (SetTimeout 30000);
        Step "should create room" (RequireUncached "../build/index");
        Step "should create room"
          (HBInit
             (JS.VObj
                [ ("roomName", JS.VStr "Haxball.JS");
                  ("maxPlayers", JS.VNum 16);
                  ("public", JS.VBool false);
                  ("noPlayer", JS.VBool true);
                  ("debug", JS.VBool true);
                  ("token", JS.VUndefined) ]));
        Step "should create room" (OnRoomLink ResolvePromise);
        Pending "should create room (proxy)" ].
Proof. split; by vm_compute. Qed.

End HarnessFacts.

(** ** The harness: what is scheduled and what is passed to [HBInit] *)

Section HarnessCalls.

Import Harness.

Lemma truthy_getenv_nonempty (env : gmap string string) (k : string) :
  JS.truthy (JS.getenv env k) = true ↔ is_nonempty env k.
Proof.
  unfold JS.getenv, is_nonempty. destruct (env !! k) as [s|]; simpl.
  - destruct (String.eqb_spec s ""); simpl; split.
    + discriminate.
    + intros (s' & [= <-] & Hs). done.
    + intros _. by exists s.
    + done.
  - split; [discriminate|]. by intros (s & ? & _).
Qed.

Lemma truthy_or (a b : JS.value) :
  JS.truthy (JS.or a b) = JS.truthy a || JS.truthy b.
Proof. unfold JS.or. by destruct (JS.truthy a) eqn:E. Qed.

Lemma it_if_spec (cond : JS.value) :
  it_if cond = it ↔ JS.truthy cond = true.
Proof. unfold it_if. by destruct (JS.truthy cond). Qed.

Lemma scheduled_app (l1 l2 : list event) :
  scheduled (l1 ++ l2) = scheduled l1 ++ scheduled l2.
Proof. apply flat_map_app. Qed.

Lemma calls_app (l1 l2 : list event) :
  calls (l1 ++ l2) = calls l1 ++ calls l2.
Proof. apply flat_map_app. Qed.

Lemma scheduled_run_test (hooks : list action) (t : test) :
  scheduled (run_test hooks t) = [title t].
Proof.
  unfold run_test. destruct (registered t); [|done].
  rewrite scheduled_app. simpl.
  assert (Hh : scheduled (map Hook hooks) = []) by (by induction hooks).
  assert (Hb : scheduled (map (Step (title t)) (body t)) = [])
    by (by induction (body t)).
  by rewrite Hh, Hb.
Qed.

(** Whatever the suite and the registrations, the schedule reports each
    test once, as begun or as pending, in the order of registration. *)
Lemma scheduled_run (s : suite) : scheduled (run s) = map title (tests s).
Proof.
  unfold run. induction (tests s) as [|t ts IH]; [done|].
  simpl. by rewrite scheduled_app, scheduled_run_test, IH.
Qed.

(** In every environment both revisions report the same two tests, each
    once (begun or pending), the room creation before the proxy test: no
    gate drops a test from the report or runs it twice. *)
Theorem both_tests_reported (env : gmap string string) :
  scheduled (run (room_js.describe env))
  = ["should create room"; "should create room (proxy)"]
  ∧ scheduled (run (part_000.describe env))
    = ["should create room"; "should create room (proxy)"].
Proof. by rewrite !scheduled_run. Qed.

Lemma calls_run_test (hooks : list action) (t : test) :
  calls (run_test hooks t)
  = match registered t with
    | it => calls (map (Step (title t)) (body t))
    | it_skip => []
    end.
Proof.
  unfold run_test. destruct (registered t); [|done].
  rewrite calls_app. simpl.
  assert (Hh : calls (map Hook hooks) = []) by (by induction hooks).
  by rewrite Hh.
Qed.

Lemma calls_room_js_eq (env : gmap string string) :
  calls (run (room_js.describe env))
  = ("should create room", room_js.create_config env)
    :: (if JS.truthy (proxy env)
           && negb (JS.loose_eq_string (JS.getenv env "CI_HB_PROXY") "1")
        then [("should create room (proxy)", room_js.proxy_config env)]
        else []).
Proof.
  rewrite run_room_js.
  change (calls (?a :: ?b :: ?l ++ ?r)) with (calls ((a :: b :: l) ++ r)).
  rewrite calls_app, calls_run_test. cbn [registered title body]. unfold it_if.
  unfold room_js.proxy_body.
  destruct (JS.truthy (proxy env));
    destruct (JS.loose_eq_string (JS.getenv env "CI_HB_PROXY") "1");
    reflexivity.
Qed.

Lemma calls_part_000_eq (env : gmap string string) :
  calls (run (part_000.describe env))
  = (if JS.truthy (token env)
     then [("should create room", part_000.create_config env)]
     else [])
    ++ (if JS.truthy (proxy env)
           && negb (JS.loose_eq_string (JS.getenv env "CI_HB_PROXY") "1")
        then [("should create room (proxy)", part_000.proxy_config env)]
        else []).
Proof.
  rewrite run_part_000, calls_app, !calls_run_test.
  cbn [registered title body]. unfold it_if, part_000.proxy_body.
  destruct (JS.truthy (token env)); destruct (JS.truthy (proxy env));
    destruct (JS.loose_eq_string (JS.getenv env "CI_HB_PROXY") "1");
    reflexivity.
Qed.

(** The calls [src/test/room.js] makes: the creation test calls [HBInit]
    in every environment; the proxy test calls it when one of the proxy
    variables is not empty and CI_HB_PROXY is not ["1"]. *)
Theorem calls_room_js (env : gmap string string) :
  calls (run (room_js.describe env))
  = ("should create room", room_js.create_config env)
    :: (if JS.truthy (proxy env)
           && negb (JS.loose_eq_string (JS.getenv env "CI_HB_PROXY") "1")
        then [("should create room (proxy)", room_js.proxy_config env)]
        else []).
Proof.
  rewrite run_room_js.
  change (calls (?a :: ?b :: ?l ++ ?r)) with (calls ((a :: b :: l) ++ r)).
  rewrite calls_app, calls_run_test. cbn [registered title body].
  unfold it_if, room_js.proxy_body.
  destruct (JS.truthy (proxy env));
    destruct (JS.loose_eq_string (JS.getenv env "CI_HB_PROXY") "1");
    reflexivity.
Qed.

(** The calls the revision [part_000] makes: the creation test calls
    [HBInit] when one of the token variables is not empty; the proxy test
    as in [room.js]. *)
Theorem calls_part_000 (env : gmap string string) :
  calls (run (part_000.describe env))
  = (if JS.truthy (token env)
     then [("should create room", part_000.create_config env)]
     else [])
    ++ (if JS.truthy (proxy env)
           && negb (JS.loose_eq_string (JS.getenv env "CI_HB_PROXY") "1")
        then [("should create room (proxy)", part_000.proxy_config env)]
        else []).
Proof.
  rewrite run_part_000, calls_app, !calls_run_test.
  cbn [registered title body]. unfold it_if, part_000.proxy_body.
  destruct (JS.truthy (token env)); destruct (JS.truthy (proxy env));
    destruct (JS.loose_eq_string (JS.getenv env "CI_HB_PROXY") "1");
    reflexivity.
Qed.

Lemma Begin_in_run_test_iff (hooks : list action) (t : test) (n : string) :
  Begin n ∈ run_test hooks t ↔ n = title t ∧ registered t = it.
Proof.
  split; [apply Begin_in_run_test|]. intros [-> Hr]. unfold run_test.
  rewrite Hr. apply elem_of_app. right. apply list_elem_of_here.
Qed.

Lemma Pending_in_run_test_iff (hooks : list action) (t : test) (n : string) :
  Pending n ∈ run_test hooks t ↔ n = title t ∧ registered t = it_skip.
Proof.
  unfold run_test. destruct (registered t).
  - rewrite elem_of_app, elem_of_cons, !list_elem_of_fmap. split.
    + intros [(a & H & _)|[H|(a & H & _)]]; discriminate.
    + intros [_ ?]. discriminate.
  - rewrite list_elem_of_singleton. split.
    + by intros [= ->].
    + by intros [-> _].
Qed.

Lemma it_if_or_getenv (env : gmap string string) (a b : string) :
  it_if (JS.or (JS.getenv env a) (JS.getenv env b)) = it
  ↔ is_nonempty env a ∨ is_nonempty env b.
Proof.
  rewrite it_if_spec, truthy_or, orb_true_iff.
  by rewrite !truthy_getenv_nonempty.
Qed.

Lemma it_if_skip (cond : JS.value) : it_if cond = it_skip ↔ ¬ it_if cond = it.
Proof. unfold it_if. destruct (JS.truthy cond); split; done. Qed.

Lemma loose_eq_getenv (env : gmap string string) (k s : string) :
  JS.loose_eq_string (JS.getenv env k) s = true ↔ env !! k = Some s.
Proof.
  unfold JS.getenv, JS.loose_eq_string. destruct (env !! k) as [s'|].
  - rewrite String.eqb_eq. split; congruence.
  - split; discriminate.
Qed.

Lemma Step_in_run_test_iff (hooks : list action) (t : test) (n : string)
    (a : action) :
  Step n a ∈ run_test hooks t
  ↔ n = title t ∧ registered t = it ∧ a ∈ body t.
Proof.
  unfold run_test. destruct (registered t).
  - rewrite elem_of_app, elem_of_cons, !list_elem_of_fmap. split.
    + intros [(a' & H & _)|[H|(a' & H & Hin)]]; try discriminate.
      by injection H as -> ->.
    + intros (-> & _ & Hin). right. right. by exists a.
  - rewrite list_elem_of_singleton. split; [discriminate|].
    by intros (_ & ? & _).
Qed.

(** The gates open on contents, not on presence: a gated test begins
    exactly when one of its two variables holds a string that is not empty,
    and is registered with [it.skip], hence pending without beginning,
    exactly when neither does.  This is so for both tests of [part_000] and
    for the proxy test of [room.js]; that one is pending in one more case,
    when it begins and reaches [this.skip()], which is when CI_HB_PROXY is
    ["1"]. *)
Theorem gates_exact (env : gmap string string) :
  (Begin "should create room" ∈ run (part_000.describe env)
   ↔ is_nonempty env "CI_HB_HEADLESS_TOKEN"
     ∨ is_nonempty env "TEST_HB_HEADLESS_TOKEN")
  ∧ (Pending "should create room" ∈ run (part_000.describe env)
     ↔ ¬ (is_nonempty env "CI_HB_HEADLESS_TOKEN"
          ∨ is_nonempty env "TEST_HB_HEADLESS_TOKEN"))
  ∧ (Begin "should create room (proxy)" ∈ run (part_000.describe env)
     ↔ is_nonempty env "CI_HB_PROXY" ∨ is_nonempty env "TEST_HB_PROXY")
  ∧ (Pending "should create room (proxy)" ∈ run (part_000.describe env)
     ↔ ¬ (is_nonempty env "CI_HB_PROXY" ∨ is_nonempty env "TEST_HB_PROXY"))
  ∧ (∀ t, Step t SkipSelf ∉ run (part_000.describe env))
  ∧ (Begin "should create room (proxy)" ∈ run (room_js.describe env)
     ↔ is_nonempty env "CI_HB_PROXY" ∨ is_nonempty env "TEST_HB_PROXY")
  ∧ (Pending "should create room (proxy)" ∈ run (room_js.describe env)
     ∨ Step "should create room (proxy)" SkipSelf
         ∈ run (room_js.describe env)
     ↔ ¬ (is_nonempty env "CI_HB_PROXY" ∨ is_nonempty env "TEST_HB_PROXY")
       ∨ env !! "CI_HB_PROXY" = Some "1")
  ∧ (∀ t, Step t SkipSelf ∈ run (room_js.describe env) →
          t = "should create room (proxy)").
Proof.
  assert (Hone : env !! "CI_HB_PROXY" = Some "1" →
                 is_nonempty env "CI_HB_PROXY" ∨ is_nonempty env "TEST_HB_PROXY").
  { intros H. left. by exists "1". }
  assert (Hskip : SkipSelf ∈ room_js.proxy_body env
                  ↔ env !! "CI_HB_PROXY" = Some "1").
  { rewrite <- loose_eq_getenv. unfold room_js.proxy_body.
    destruct (JS.loose_eq_string (JS.getenv env "CI_HB_PROXY") "1").
    - split; [done|]. intros _. apply list_elem_of_further, list_elem_of_here.
    - rewrite !elem_of_cons, elem_of_nil. split; [|done].
      by intros [[=]|[[=]|[[=]|[[=]|[]]]]]. }
  assert (Hnoskip : ∀ t, Step t SkipSelf ∉ run (part_000.describe env)).
  { intros t. rewrite run_part_000, elem_of_app, !Step_in_run_test_iff.
    cbn [title registered body].
    unfold part_000.create_body, part_000.proxy_body.
    destruct (JS.loose_eq_string (JS.getenv env "CI_HB_PROXY") "1");
      rewrite !elem_of_cons, !elem_of_nil;
      intros [(_ & _ & H)|(_ & _ & H)]; by repeat destruct H as [[=]|H]. }
  assert (Hwhere : ∀ t, Step t SkipSelf ∈ run (room_js.describe env)
                        ↔ t = "should create room (proxy)"
                          ∧ it_if (proxy env) = it
                          ∧ env !! "CI_HB_PROXY" = Some "1").
  { intros t. rewrite run_room_js, <- Hskip.
    rewrite !elem_of_cons, elem_of_app, list_elem_of_fmap.
    rewrite Step_in_run_test_iff. cbn [title registered body].
    unfold room_js.create_body. split.
    - intros [[=]|[[=]|[(a & [= -> <-] & H)|H]]]; [|done].
      rewrite !elem_of_cons, elem_of_nil in H.
      by repeat destruct H as [[=]|H].
    - intros H. by repeat right. }
  assert (Hgates :
    (Begin "should create room" ∈ run (part_000.describe env)
     ↔ is_nonempty env "CI_HB_HEADLESS_TOKEN"
       ∨ is_nonempty env "TEST_HB_HEADLESS_TOKEN")
    ∧ (Pending "should create room" ∈ run (part_000.describe env)
       ↔ ¬ (is_nonempty env "CI_HB_HEADLESS_TOKEN"
            ∨ is_nonempty env "TEST_HB_HEADLESS_TOKEN"))
    ∧ (Begin "should create room (proxy)" ∈ run (part_000.describe env)
       ↔ is_nonempty env "CI_HB_PROXY" ∨ is_nonempty env "TEST_HB_PROXY")
    ∧ (Pending "should create room (proxy)" ∈ run (part_000.describe env)
       ↔ ¬ (is_nonempty env "CI_HB_PROXY"
            ∨ is_nonempty env "TEST_HB_PROXY"))
    ∧ (Begin "should create room (proxy)" ∈ run (room_js.describe env)
       ↔ is_nonempty env "CI_HB_PROXY" ∨ is_nonempty env "TEST_HB_PROXY")
    ∧ (Pending "should create room (proxy)" ∈ run (room_js.describe env)
       ↔ ¬ (is_nonempty env "CI_HB_PROXY"
            ∨ is_nonempty env "TEST_HB_PROXY"))).
  { rewrite run_part_000, run_room_js.
    rewrite <- !it_if_or_getenv, <- !it_if_skip.
    rewrite !elem_of_cons, !elem_of_app, !list_elem_of_fmap.
    rewrite !Begin_in_run_test_iff, !Pending_in_run_test_iff.
    cbn [title registered]. unfold token, proxy.
    repeat split; try tauto.
    - by intros [[_ ?]|[[=] _]].
    - by intros [[_ ?]|[[=] _]].
    - by intros [[[=] _]|[_ ?]].
    - by intros [[[=] _]|[_ ?]].
    - by intros [[=]|[[=]|[(x & [=] & _)|[_ ?]]]].
    - by intros [[=]|[[=]|[(x & [=] & _)|[_ ?]]]]. }
  destruct Hgates as (H1 & H2 & H3 & H4 & H5 & H6).
  split; [exact H1|]. split; [exact H2|]. split; [exact H3|].
  split; [exact H4|]. split; [exact Hnoskip|]. split; [exact H5|]. split.
  - rewrite H6, Hwhere. split.
    + intros [H|(_ & _ & H)]; [by left|by right].
    + intros [H|H]; [by left|]. right. split; [done|]. split; [|done].
      by apply it_if_or_getenv, Hone.
  - intros t Ht. by apply Hwhere in Ht as [-> _].
Qed.

(** Every call of [HBInit], in either revision and in any environment, asks
    for the same room: named Haxball.JS, sixteen players, not public, no
    host player, debug on, with the token read from the environment; only
    the proxy test adds a proxy. *)
Theorem calls_settings (env : gmap string string) :
  Forall
    (λ c, JS.prop c.2 "roomName" = JS.VStr "Haxball.JS"
          ∧ JS.prop c.2 "maxPlayers" = JS.VNum 16
          ∧ JS.prop c.2 "public" = JS.VBool false
          ∧ JS.prop c.2 "noPlayer" = JS.VBool true
          ∧ JS.prop c.2 "debug" = JS.VBool true
          ∧ JS.prop c.2 "token" = token env
          ∧ JS.prop c.2 "proxy"
            = if String.eqb c.1 "should create room (proxy)"
              then proxy env else JS.VUndefined)
    (calls (run (room_js.describe env))
     ++ calls (run (part_000.describe env))).
Proof.
  rewrite calls_room_js_eq, calls_part_000_eq.
  destruct (JS.truthy (token env)); destruct (JS.truthy (proxy env));
    destruct (JS.loose_eq_string (JS.getenv env "CI_HB_PROXY") "1");
    simpl; repeat constructor.
Qed.

(** What [a || b] is for two variables once it is truthy: a string that is
    not empty, the first variable if it holds one and the second if not. *)
Lemma or_getenv_truthy (env : gmap string string) (a b : string) :
  JS.truthy (JS.or (JS.getenv env a) (JS.getenv env b)) = true →
  ∃ s, JS.or (JS.getenv env a) (JS.getenv env b) = JS.VStr s
       ∧ s ≠ ""
       ∧ (is_nonempty env a → env !! a = Some s)
       ∧ (¬ is_nonempty env a → env !! b = Some s).
Proof.
  unfold JS.or. destruct (JS.truthy (JS.getenv env a)) eqn:Ea; intros Hb.
  - apply truthy_getenv_nonempty in Ea as Ha. destruct Ha as (s & Hs & Hne).
    exists s. unfold JS.getenv. rewrite Hs.
    split; [done|]. split; [done|]. split; [done|].
    intros Hn. destruct Hn. by exists s.
  - apply truthy_getenv_nonempty in Hb as (s & Hs & Hne).
    exists s. unfold JS.getenv at 1. rewrite Hs.
    split; [done|]. split; [done|]. split; [|done].
    intros Ha. apply truthy_getenv_nonempty in Ha. congruence.
Qed.

(** The credentials that reach [HBInit].  The proxy test always passes a
    proxy that is a string and not empty: CI_HB_PROXY if that holds one
    (and then it is not ["1"]), TEST_HB_PROXY otherwise.  The creation test
    of [part_000] always passes a token that is a string and not empty,
    chosen the same way between the two token variables. *)
Theorem calls_credentials (env : gmap string string) :
  Forall
    (λ c, c.1 = "should create room (proxy)" →
          ∃ s, JS.prop c.2 "proxy" = JS.VStr s
               ∧ s ≠ ""
               ∧ (is_nonempty env "CI_HB_PROXY" →
                  env !! "CI_HB_PROXY" = Some s ∧ s ≠ "1")
               ∧ (¬ is_nonempty env "CI_HB_PROXY" →
                  env !! "TEST_HB_PROXY" = Some s))
    (calls (run (room_js.describe env))
     ++ calls (run (part_000.describe env)))
  ∧ Forall
      (λ c, c.1 = "should create room" →
            ∃ s, JS.prop c.2 "token" = JS.VStr s
                 ∧ s ≠ ""
                 ∧ (is_nonempty env "CI_HB_HEADLESS_TOKEN" →
                    env !! "CI_HB_HEADLESS_TOKEN" = Some s)
                 ∧ (¬ is_nonempty env "CI_HB_HEADLESS_TOKEN" →
                    env !! "TEST_HB_HEADLESS_TOKEN" = Some s))
      (calls (run (part_000.describe env))).
Proof.
  assert (Hproxy :
    JS.truthy (proxy env) = true →
    JS.loose_eq_string (JS.getenv env "CI_HB_PROXY") "1" = false →
    ∃ s, proxy env = JS.VStr s
         ∧ s ≠ ""
         ∧ (is_nonempty env "CI_HB_PROXY" →
            env !! "CI_HB_PROXY" = Some s ∧ s ≠ "1")
         ∧ (¬ is_nonempty env "CI_HB_PROXY" →
            env !! "TEST_HB_PROXY" = Some s)).
  { intros Ht Hone. apply or_getenv_truthy in Ht as (s & Hs & Hne & Hci & Hte).
    exists s. split; [done|]. split; [done|]. split; [|done].
    intros Hn. split; [by apply Hci|].
    intros ->. apply Hci in Hn. apply loose_eq_getenv in Hn. congruence. }
  rewrite calls_room_js_eq, calls_part_000_eq. split.
  - destruct (JS.truthy (token env));
      destruct (JS.truthy (proxy env)) eqn:Ep;
      destruct (JS.loose_eq_string (JS.getenv env "CI_HB_PROXY") "1") eqn:E1;
      simpl; repeat constructor; try discriminate;
      intros _; by apply Hproxy.
  - destruct (JS.truthy (token env)) eqn:Et;
      destruct (JS.truthy (proxy env));
      destruct (JS.loose_eq_string (JS.getenv env "CI_HB_PROXY") "1");
      simpl; repeat constructor; try discriminate;
      intros _; by apply or_getenv_truthy.
Qed.

(** The proxy test is not behind the token: with a proxy address, no token
    variable and CI_HB_PROXY other than ["1"], both revisions call [HBInit]
    in the proxy test with an undefined token. *)
Theorem proxy_test_ignores_token (env : gmap string string) :
  ¬ token_supplied env →
  is_nonempty env "CI_HB_PROXY" ∨ is_nonempty env "TEST_HB_PROXY" →
  env !! "CI_HB_PROXY" ≠ Some "1" →
  (∃ config,
     ("should create room (proxy)", config)
       ∈ calls (run (room_js.describe env))
     ∧ JS.prop config "token" = JS.VUndefined)
  ∧ (∃ config,
       calls (run (part_000.describe env))
       = [("should create room (proxy)", config)]
       ∧ JS.prop config "token" = JS.VUndefined).
Proof.
  intros Htoken Hproxy Hone.
  assert (Ht : token env = JS.VUndefined) by by apply or_getenv_unset.
  assert (Hp : JS.truthy (proxy env) = true).
  { unfold proxy. rewrite truthy_or, orb_true_iff.
    by rewrite !truthy_getenv_nonempty. }
  assert (H1 : JS.loose_eq_string (JS.getenv env "CI_HB_PROXY") "1" = false).
  { apply not_true_is_false. by rewrite loose_eq_getenv. }
  rewrite calls_room_js_eq, calls_part_000_eq, Hp, H1, Ht. simpl. split.
  - exists (room_js.proxy_config env). split.
    + apply list_elem_of_further, list_elem_of_here.
    + simpl. exact Ht.
  - exists (part_000.proxy_config env). split; [done|]. simpl. exact Ht.
Qed.

(** When the token gate is open the two revisions make the same calls of
    [HBInit], in the same order, with the same properties in each
    configuration (the proxy test lists them in another order). *)
Theorem revisions_make_same_calls (env : gmap string string) :
  is_nonempty env "CI_HB_HEADLESS_TOKEN"
  ∨ is_nonempty env "TEST_HB_HEADLESS_TOKEN" →
  Forall2 (λ a b, a.1 = b.1 ∧ JS.same_object a.2 b.2)
    (calls (run (room_js.describe env)))
    (calls (run (part_000.describe env))).
Proof.
  intros Htoken.
  assert (Ht : JS.truthy (token env) = true).
  { unfold token. rewrite truthy_or, orb_true_iff.
    by rewrite !truthy_getenv_nonempty. }
  rewrite calls_room_js_eq, calls_part_000_eq, Ht.
  destruct (JS.truthy (proxy env));
    destruct (JS.loose_eq_string (JS.getenv env "CI_HB_PROXY") "1"); simpl.
  all: repeat constructor.
Qed.

(** With CI_HB_PROXY set to ["1"] the proxy test is the last thing in the
    schedule and consists of the delay, the timeout and a stop: [room.js]
    marks the test skipped, [part_000] reports it done; neither calls
    [HBInit] in it. *)
Theorem proxy_test_stops_in_CI (env : gmap string string) :
  env !! "CI_HB_PROXY" = Some "1" →
  (∃ before,
     run (room_js.describe env)
     = before
       ++ [ Hook (Delay 5000);
            Begin "should create room (proxy)";
            Step "should create room (proxy)" (SetTimeout 30000);
            Step "should create room (proxy)" SkipSelf ])
  ∧ (∃ before,
       run (part_000.describe env)
       = before
         ++ [ Hook (Delay 5000);
              Begin "should create room (proxy)";
              Step "should create room (proxy)" (SetTimeout 30000);
              Step "should create room (proxy)" Done ])
  ∧ Forall (λ c, c.1 ≠ "should create room (proxy)")
      (calls (run (room_js.describe env))
       ++ calls (run (part_000.describe env))).
Proof.
  intros Hone.
  assert (H1 : JS.loose_eq_string (JS.getenv env "CI_HB_PROXY") "1" = true)
    by by apply loose_eq_getenv.
  assert (Hp : JS.truthy (proxy env) = true).
  { unfold proxy. rewrite truthy_or, orb_true_iff. left.
    apply truthy_getenv_nonempty. by exists "1". }
  split; [|split].
  - rewrite run_room_js. unfold run_test, it_if, room_js.proxy_body.
    cbn [registered title body]. rewrite Hp, H1.
    by exists (Hook (Delay 5000) :: Begin "should create room"
                 :: map (Step "should create room")
                      (room_js.create_body env)).
  - rewrite run_part_000. unfold run_test at 2.
    unfold it_if at 2. unfold part_000.proxy_body.
    cbn [registered title body]. rewrite Hp, H1. by eexists.
  - rewrite calls_room_js_eq, calls_part_000_eq, Hp, H1.
    destruct (JS.truthy (token env)); simpl; repeat constructor; discriminate.
Qed.

(** Every test body that begins sets its own timeout of 30000 ms before
    anything else, in both revisions. *)
Theorem timeout_comes_first (env : gmap string string)
    (before after : list event) (t : string) :
  run (room_js.describe env) = before ++ Begin t :: after
  ∨ run (part_000.describe env) = before ++ Begin t :: after →
  ∃ after', after = Step t (SetTimeout 30000) :: after'.
Proof.
  intros [H|H].
  - rewrite run_room_js in H. written_out H.
    destruct (JS.truthy (proxy env));
      destruct (JS.loose_eq_string (JS.getenv env "CI_HB_PROXY") "1");
      scan H before; injection H as <- <-; by eexists.
  - rewrite run_part_000 in H. written_out H.
    destruct (JS.truthy (token env)); destruct (JS.truthy (proxy env));
      destruct (JS.loose_eq_string (JS.getenv env "CI_HB_PROXY") "1");
      scan H before; injection H as <- <-; by eexists.
Qed.

(** [HBInit] is only ever called on a build that the same test has just
    loaded with [requireUncached], and the next thing the test does is to
    assign [onRoomLink]. *)
Theorem HBInit_follows_requireUncached (env : gmap string string)
    (before after : list event) (t : string) (config : JS.value) :
  run (room_js.describe env) = before ++ Step t (HBInit config) :: after
  ∨ run (part_000.describe env) = before ++ Step t (HBInit config) :: after →
  (∃ earlier,
     before = earlier ++ [Step t (RequireUncached "../build/index")])
  ∧ ∃ c after', after = Step t (OnRoomLink c) :: after'.
Proof.
  intros [H|H].
  - rewrite run_room_js in H. written_out H.
    destruct (JS.truthy (proxy env));
      destruct (JS.loose_eq_string (JS.getenv env "CI_HB_PROXY") "1");
      scan H before; injection H as <- <- <-;
      (split;
       [ match goal with
         | |- ∃ e, ?l = e ++ _ => by exists (removelast l)
         end
       | by eexists _, _ ]).
  - rewrite run_part_000 in H. written_out H.
    destruct (JS.truthy (token env)); destruct (JS.truthy (proxy env));
      destruct (JS.loose_eq_string (JS.getenv env "CI_HB_PROXY") "1");
      scan H before; injection H as <- <- <-;
      (split;
       [ match goal with
         | |- ∃ e, ?l = e ++ _ => by exists (removelast l)
         end
       | by eexists _, _ ]).
Qed.

Lemma proxy_test_ignores_token_witness :
  (¬ token_supplied {["TEST_HB_PROXY" := "127.0.0.1:8080"]})
  ∧ (is_nonempty {["TEST_HB_PROXY" := "127.0.0.1:8080"]} "CI_HB_PROXY"
     ∨ is_nonempty {["TEST_HB_PROXY" := "127.0.0.1:8080"]} "TEST_HB_PROXY")
  ∧ ({["TEST_HB_PROXY" := "127.0.0.1:8080"]} : gmap string string)
      !! "CI_HB_PROXY" ≠ Some "1"
  ∧ ∃ config,
      calls (run (part_000.describe {["TEST_HB_PROXY" := "127.0.0.1:8080"]}))
      = [("should create room (proxy)", config)]
      ∧ JS.prop config "token" = JS.VUndefined.
Proof.
  assert (H1 : ¬ token_supplied {["TEST_HB_PROXY" := "127.0.0.1:8080"]}).
  { intros [[s H]|[s H]]; by vm_compute in H. }
  assert (H2 : is_nonempty {["TEST_HB_PROXY" := "127.0.0.1:8080"]}
                 "CI_HB_PROXY"
               ∨ is_nonempty {["TEST_HB_PROXY" := "127.0.0.1:8080"]}
                   "TEST_HB_PROXY").
  { right. exists "127.0.0.1:8080". split; [reflexivity|discriminate]. }
  assert (H3 : ({["TEST_HB_PROXY" := "127.0.0.1:8080"]} : gmap string string)
                 !! "CI_HB_PROXY" ≠ Some "1") by (by vm_compute).
  split; [exact H1|]. split; [exact H2|]. split; [exact H3|].
  exact (proj2 (proxy_test_ignores_token _ H1 H2 H3)).
Defined.

Lemma revisions_make_same_calls_witness :
  (is_nonempty {["CI_HB_HEADLESS_TOKEN" := "thr1.AAAAAGb";
                 "TEST_HB_PROXY" := "127.0.0.1:8080"]} "CI_HB_HEADLESS_TOKEN"
   ∨ is_nonempty {["CI_HB_HEADLESS_TOKEN" := "thr1.AAAAAGb";
                   "TEST_HB_PROXY" := "127.0.0.1:8080"]}
       "TEST_HB_HEADLESS_TOKEN")
  ∧ length
      (calls
         (run (room_js.describe
                 {["CI_HB_HEADLESS_TOKEN" := "thr1.AAAAAGb";
                   "TEST_HB_PROXY" := "127.0.0.1:8080"]})))
    = 2
  ∧ Forall2 (λ a b, a.1 = b.1 ∧ JS.same_object a.2 b.2)
      (calls
         (run (room_js.describe
                 {["CI_HB_HEADLESS_TOKEN" := "thr1.AAAAAGb";
                   "TEST_HB_PROXY" := "127.0.0.1:8080"]})))
      (calls
         (run (part_000.describe
                 {["CI_HB_HEADLESS_TOKEN" := "thr1.AAAAAGb";
                   "TEST_HB_PROXY" := "127.0.0.1:8080"]}))).
Proof.
  assert (H : is_nonempty {["CI_HB_HEADLESS_TOKEN" := "thr1.AAAAAGb";
                            "TEST_HB_PROXY" := "127.0.0.1:8080"]}
                "CI_HB_HEADLESS_TOKEN"
              ∨ is_nonempty {["CI_HB_HEADLESS_TOKEN" := "thr1.AAAAAGb";
                              "TEST_HB_PROXY" := "127.0.0.1:8080"]}
                  "TEST_HB_HEADLESS_TOKEN").
  { left. exists "thr1.AAAAAGb". split; [reflexivity|discriminate]. }
  split; [exact H|]. split; [reflexivity|].
  exact (revisions_make_same_calls _ H).
Defined.

Lemma proxy_test_stops_in_CI_witness :
  ({["CI_HB_PROXY" := "1"]} : gmap string string) !! "CI_HB_PROXY" = Some "1"
  ∧ calls (run (room_js.describe {["CI_HB_PROXY" := "1"]}))
    = [("should create room", room_js.create_config {["CI_HB_PROXY" := "1"]})]
  ∧ Forall (λ c, c.1 ≠ "should create room (proxy)")
      (calls (run (room_js.describe {["CI_HB_PROXY" := "1"]}))
       ++ calls (run (part_000.describe {["CI_HB_PROXY" := "1"]}))).
Proof.
  split; [reflexivity|]. split; [reflexivity|].
  exact (proj2 (proj2 (proxy_test_stops_in_CI {["CI_HB_PROXY" := "1"]}
                         eq_refl))).
Defined.

Lemma timeout_comes_first_witness :
  run (room_js.describe ∅)
  = [Hook (Delay 5000)] ++ Begin "should create room"
    :: [ Step "should create room" (SetTimeout 30000);
         Step "should create room" (RequireUncached "../build/index");
         Step "should create room" (HBInit (room_js.create_config ∅));
         Step "should create room" (OnRoomLink ResolvePromise);
         Pending "should create room (proxy)" ]
  ∧ ∃ after',
      [ Step "should create room" (SetTimeout 30000);
        Step "should create room" (RequireUncached "../build/index");
        Step "should create room" (HBInit (room_js.create_config ∅));
        Step "should create room" (OnRoomLink ResolvePromise);
        Pending "should create room (proxy)" ]
      = Step "should create room" (SetTimeout 30000) :: after'.
Proof.
  assert (H : run (room_js.describe ∅)
              = [Hook (Delay 5000)] ++ Begin "should create room"
                :: [ Step "should create room" (SetTimeout 30000);
                     Step "should create room"
                       (RequireUncached "../build/index");
                     Step "should create room"
                       (HBInit (room_js.create_config ∅));
                     Step "should create room" (OnRoomLink ResolvePromise);
                     Pending "should create room (proxy)" ])
    by reflexivity.
  split; [exact H|].
  exact (timeout_comes_first ∅ _ _ _ (or_introl H)).
Defined.

Lemma HBInit_follows_requireUncached_witness :
  run (room_js.describe ∅)
  = [ Hook (Delay 5000);
      Begin "should create room";
      Step "should create room" (SetTimeout 30000);
      Step "should create room" (RequireUncached "../build/index") ]
    ++ Step "should create room" (HBInit (room_js.create_config ∅))
    :: [ Step "should create room" (OnRoomLink ResolvePromise);
         Pending "should create room (proxy)" ]
  ∧ ∃ earlier,
      [ Hook (Delay 5000);
        Begin "should create room";
        Step "should create room" (SetTimeout 30000);
        Step "should create room" (RequireUncached "../build/index") ]
      = earlier
        ++ [Step "should create room" (RequireUncached "../build/index")].
Proof.
  assert (H : run (room_js.describe ∅)
              = [ Hook (Delay 5000);
                  Begin "should create room";
                  Step "should create room" (SetTimeout 30000);
                  Step "should create room"
                    (RequireUncached "../build/index") ]
                ++ Step "should create room"
                     (HBInit (room_js.create_config ∅))
                :: [ Step "should create room" (OnRoomLink ResolvePromise);
                     Pending "should create room (proxy)" ])
    by reflexivity.
  split; [exact H|].
  exact (proj1 (HBInit_follows_requireUncached ∅ _ _ _ _ (or_introl H))).
Defined.

End HarnessCalls.

(** ** The declarations: what the types admit *)

Section DeclarationTypes.

Import Decl.

Lemma inhabits_number (v : JS.value) :
  JS.inhabits TNumber v = true ↔ ∃ n, v = JS.VNum n.
Proof.
  destruct v; simpl; split; try discriminate; try (by intros [? [=]]).
  by eexists.
Qed.

(** The declared [Color] admits every string, not only ["transparent"] and
    the hexadecimal ones, and of the arrays exactly the triplets of
    numbers; it admits nothing else (no number, no [null], no array of
    another length). *)
Theorem Color_admits (v : JS.value) :
  JS.inhabits (a_body Color) v = true
  ↔ (∃ s, v = JS.VStr s) ∨ (∃ r g b, v = JS.VArr [JS.VNum r; JS.VNum g; JS.VNum b]).
Proof.
  split.
  - destruct v as [| | | |s|items|]; simpl; try discriminate.
    + intros _. left. by eexists.
    + rewrite !orb_false_r. intros H. right.
      destruct items as [|v1 [|v2 [|v3 [|v4 items]]]]; try discriminate;
        try (by rewrite !andb_false_r in H).
      rewrite andb_true_r, !andb_true_iff in H. destruct H as (H1 & H2 & H3).
      apply inhabits_number in H1 as [r ->].
      apply inhabits_number in H2 as [g ->].
      apply inhabits_number in H3 as [b ->]. by eexists _, _, _.
  - intros [[s ->]|(r & g & b & ->)]; simpl; [|reflexivity].
    by rewrite orb_true_r.
Qed.

(** A union of string literals admits exactly the strings it lists. *)
Lemma literal_union_admits (lits : list string) (v : JS.value) :
  JS.inhabits (TUnion (map TLit lits)) v = true
  ↔ ∃ s, v = JS.VStr s ∧ s ∈ lits.
Proof.
  simpl. induction lits as [|l lits IH]; simpl.
  - split; [discriminate|]. intros (s & _ & H). by apply elem_of_nil in H.
  - rewrite orb_true_iff, IH. split.
    + intros [H|(s & -> & H)].
      * destruct v; try discriminate. apply String.eqb_eq in H as ->.
        eexists. split; [done|]. apply list_elem_of_here.
      * eexists. split; [done|]. by apply list_elem_of_further.
    + intros (s & -> & [->|H]%elem_of_cons).
      * left. apply String.eqb_refl.
      * right. by exists s.
Qed.

(** The enumerated strings of the interface: an announcement style, the
    team of a goal, what the camera follows, the kick-off reset and the
    kind of background each admit exactly the strings below, compared
    exactly (no other case, no other value). *)
Theorem enumerated_strings (v : JS.value) :
  (JS.inhabits (a_body AnnouncementStyle) v = true
   ↔ ∃ s, v = JS.VStr s
          ∧ s ∈ ["normal"; "bold"; "italic"; "small"; "small-bold";
                 "small-italic"])
  ∧ (∀ t, find_member "team" (all_members Goal) = Some (req "team" t) →
          JS.inhabits t v = true ↔ ∃ s, v = JS.VStr s ∧ s ∈ ["red"; "blue"])
  ∧ (∀ t, find_member "cameraFollow" (all_members StadiumObject)
          = Some (opt "cameraFollow" t) →
          JS.inhabits t v = true
          ↔ ∃ s, v = JS.VStr s ∧ s ∈ ["player"; "ball"])
  ∧ (∀ t, find_member "kickOffReset" (all_members StadiumObject)
          = Some (opt "kickOffReset" t) →
          JS.inhabits t v = true
          ↔ ∃ s, v = JS.VStr s ∧ s ∈ ["full"; "partial"])
  ∧ (∀ t, find_member "type" (all_members BackgroundObject)
          = Some (opt "type" t) →
          JS.inhabits t v = true
          ↔ ∃ s, v = JS.VStr s ∧ s ∈ ["grass"; "hockey"; "none"]).
Proof.
  rewrite !members_without_extends by reflexivity.
  split; [apply (literal_union_admits [_; _; _; _; _; _])|].
  split; [|split; [|split]]; intros t [= <-].
  - apply (literal_union_admits [_; _]).
  - apply (literal_union_admits [_; _]).
  - apply (literal_union_admits [_; _]).
  - apply (literal_union_admits [_; _; _]).
Qed.

End DeclarationTypes.

(** ** The declarations: methods, references, inheritance *)

Section DeclarationTables.

Import Decl.

(** Of the methods of the room that are not event handlers, the eight
    getters and [stopRecording] have a result; each of the other
    twenty-five (the mutators, [startRecording], [resetPositions]) returns
    [void], so a caller gets no confirmation from them. *)
Theorem methods_with_a_result :
  names
    (List.filter (fun m => is_method m && negb (returns_void m))
       (all_members RoomObject))
  = [ "getPlayer"; "getPlayerList"; "getScores"; "getBallPosition";
      "stopRecording"; "getDiscProperties"; "getPlayerDiscProperties";
      "getDiscCount"; "getInputObject" ]
  ∧ length
      (List.filter (fun m => is_method m && returns_void m)
         (all_members RoomObject))
    = 25
  ∧ Forall (λ m, m_optional m = false)
      (List.filter is_method (all_members RoomObject)).
Proof.
  rewrite members_without_extends by reflexivity.
  split; [reflexivity|]. split; [reflexivity|].
  vm_compute. repeat constructor.
Qed.

(** The declarations are closed but for what the language provides, and
    free of clashes: the type names that a member, a parameter, a result or
    an alias uses and the two files do not declare are [Record],
    [Uint8Array], [Partial] and [Promise]; the values whose type is asked
    with [typeof] are the three WebRTC constructors, which the files do not
    declare either; every interface named after [extends] is declared; no
    two declarations share a name and no interface declares a member
    twice. *)
Theorem declarations_closed :
  List.filter (fun n => negb (is_declared n)) referenced
  = ["Record"; "Uint8Array"; "Partial"; "Promise"]
  ∧ queried = ["RTCPeerConnection"; "RTCIceCandidate"; "RTCSessionDescription"]
  ∧ Forall (λ i, Forall (λ b, is_Some (find_interface b)) (i_extends i))
      interfaces
  ∧ NoDup declared
  ∧ Forall (λ i, NoDup (names (i_members i))) interfaces.
Proof.
  split; [by vm_compute|]. split; [by vm_compute|]. split.
  { apply (bool_decide_unpack _). by vm_compute. }
  split; apply (bool_decide_unpack _); by vm_compute.
Qed.

(** A disc of the room API is not a disc of a stadium file: the two
    interfaces share the names radius, invMass, damping, color, cMask and
    cGroup only; the bouncing coefficient is [bCoeff] in the first and
    [bCoef] in the second, and color, cMask and cGroup are numbers in the
    first where the second has a [Color] and arrays of flag names. *)
Theorem room_disc_and_stadium_disc :
  List.filter (fun n => has_member n (all_members Disc))
    (names (all_members DiscPropertiesObject))
  = ["radius"; "invMass"; "damping"; "color"; "cMask"; "cGroup"]
  ∧ has_member "bCoeff" (all_members DiscPropertiesObject) = true
  ∧ has_member "bCoeff" (all_members Disc) = false
  ∧ has_member "bCoef" (all_members Disc) = true
  ∧ has_member "bCoef" (all_members DiscPropertiesObject) = false
  ∧ map (λ n, m_shape <$> find_member n (all_members DiscPropertiesObject))
      ["color"; "cMask"; "cGroup"]
    = [Some (Property TNumber); Some (Property TNumber);
       Some (Property TNumber)]
  ∧ map (λ n, m_shape <$> find_member n (all_members Disc))
      ["color"; "cMask"; "cGroup"]
    = [Some (Property (TRef "Color")); Some (Property (TArray TString));
       Some (Property (TArray TString))].
Proof.
  rewrite !members_without_extends by reflexivity. repeat split.
Qed.

(** Where [null] can come in while handling an event: the parameters of
    the handlers that admit [null] are exactly those called [byPlayer]; the
    player, the scores and the other arguments of a handler are never
    [null]. *)
Theorem byPlayer_is_the_nullable_parameter :
  Forall
    (λ m, match m_shape m with
          | Method ps _ =>
              Forall
                (λ p, allows_null (p_type p)
                      = String.eqb (p_name p) "byPlayer")
                ps
          | Property _ => False
          end)
    (handlers RoomObject)
  ∧ names
      (List.filter
         (fun m =>
            match m_shape m with
            | Method ps _ =>
                existsb (fun p => String.eqb (p_name p) "byPlayer") ps
            | Property _ => false
            end)
         (handlers RoomObject))
    = [ "onGameStart"; "onGameStop"; "onPlayerAdminChange";
        "onPlayerTeamChange"; "onPlayerKicked"; "onGamePause";
        "onGameUnpause"; "onStadiumChange"; "onKickRateLimitSet";
        "onTeamsLockChange" ].
Proof. split; [|reflexivity]. vm_compute. repeat constructor. Qed.

(** What a stadium file must contain: a stadium needs its name and the six
    sequences, a segment its two vertexes, a goal its two points and its
    team, a plane its normal and distance, a disc its position and radius,
    a joint its two discs; every other member of the schema, and every
    member of a vertex, of the player physics and of the background, is
    optional. *)
Lemma required_members_of_a_stadium :
  map
    (λ i, (i_name i,
           names (List.filter (fun m => negb (m_optional m)) (all_members i))))
    [StadiumObject; Vertex; Segment; Goal; Plane; Disc; Joint; PlayerPhysics;
     BackgroundObject]
  = [ ("StadiumObject",
       ["name"; "vertexes"; "segments"; "goals"; "discs"; "planes"; "joints"]);
      ("Vertex", []);
      ("Segment", ["v0"; "v1"]);
      ("Goal", ["p0"; "p1"; "team"]);
      ("Plane", ["normal"; "dist"]);
      ("Disc", ["pos"; "radius"]);
      ("Joint", ["d0"; "d1"]);
      ("PlayerPhysics", []);
      ("BackgroundObject", []) ].
Proof. by vm_compute. Qed.

End DeclarationTables.
